(** * Configuration resolution of the [runner] package (runner/config.go)

    A shallow embedding of [config.go]: the configuration schema, the
    built-in defaults, discovery of a configuration file, the merge with
    the defaults, the [preprocess] normalisation and the accessors.

    Everything the Go code obtains from outside the file is collected in
    the record [Host]: the operating system (environment, working
    directory), the libraries [path/filepath] and [viper], and the three
    helpers of the package that live in another file ([expandPath],
    [cleanPath], [adaptToVariousPlatforms]).  The mutable part of the
    process (current working directory, standard output) is the record
    [proc], passed explicitly. *)

From Stdlib Require Import ZArith Bool.
From stdpp Require Import base strings list gmap.

Local Open Scope string_scope.
Local Open Scope Z_scope.

(** ** Data model *)

(** A Go [error] is represented by its message. *)
Definition error : Type := string.

(** [fmt.Errorf("<prefix> / %w", err)] *)
Definition wrap (prefix : string) (err : error) : error :=
  prefix +:+ " / " +:+ err.

(** A Go call that only returns an [error] but has an effect we track. *)
Inductive result (A : Type) : Type :=
| Ok (a : A)
| Err (e : error).
Arguments Ok {A} a.
Arguments Err {A} e.

Module cfgBuild.
Record t : Type := mk {
  Cmd : string;
  Bin : string;
  FullBin : string;
  Log : string;
  IncludeExt : list string;
  ExcludeDir : list string;
  IncludeDir : list string;
  ExcludeFile : list string;
  Delay : Z;
  StopOnError : bool;
  SendInterrupt : bool;
  KillDelay : Z
}.
End cfgBuild.

Module cfgLog.
Record t : Type := mk { AddTime : bool }.
End cfgLog.

Module cfgColor.
Record t : Type := mk {
  Main : string;
  Watcher : string;
  Build : string;
  Runner : string;
  App : string
}.
End cfgColor.

Module cfgMisc.
Record t : Type := mk { CleanOnExit : bool }.
End cfgMisc.

Record config : Type := mkConfig {
  Root : string;
  TmpDir : string;
  Build : cfgBuild.t;
  Color : cfgColor.t;
  Log : cfgLog.t;
  Misc : cfgMisc.t
}.

(** Field assignments [c.X = v] of the Go code. *)
Definition set_Root (v : string) (c : config) : config :=
  mkConfig v (TmpDir c) (Build c) (Color c) (Log c) (Misc c).

Definition set_TmpDir (v : string) (c : config) : config :=
  mkConfig (Root c) v (Build c) (Color c) (Log c) (Misc c).

Definition set_Build (b : cfgBuild.t) (c : config) : config :=
  mkConfig (Root c) (TmpDir c) b (Color c) (Log c) (Misc c).

Definition set_Build_Bin (v : string) (c : config) : config :=
  let b := Build c in
  set_Build
    (cfgBuild.mk (cfgBuild.Cmd b) v (cfgBuild.FullBin b) (cfgBuild.Log b)
       (cfgBuild.IncludeExt b) (cfgBuild.ExcludeDir b) (cfgBuild.IncludeDir b)
       (cfgBuild.ExcludeFile b) (cfgBuild.Delay b) (cfgBuild.StopOnError b)
       (cfgBuild.SendInterrupt b) (cfgBuild.KillDelay b)) c.

Definition set_Build_ExcludeDir (v : list string) (c : config) : config :=
  let b := Build c in
  set_Build
    (cfgBuild.mk (cfgBuild.Cmd b) (cfgBuild.Bin b) (cfgBuild.FullBin b)
       (cfgBuild.Log b) (cfgBuild.IncludeExt b) v (cfgBuild.IncludeDir b)
       (cfgBuild.ExcludeFile b) (cfgBuild.Delay b) (cfgBuild.StopOnError b)
       (cfgBuild.SendInterrupt b) (cfgBuild.KillDelay b)) c.

(** [new(config)]: every field at the zero value of its type. *)
Definition zeroBuild : cfgBuild.t :=
  cfgBuild.mk "" "" "" "" [] [] [] [] 0 false false 0.

Definition zeroConfig : config :=
  mkConfig "" "" zeroBuild (cfgColor.mk "" "" "" "" "")
    (cfgLog.mk false) (cfgMisc.mk false).

(** ** Constants *)

Definition dftTOML : string := ".air.toml".
Definition dftYAML : string := ".air.yaml".
Definition dftConf : string := ".air.conf".
Definition airWd : string := "air_wd".

(** ** The outside world *)

(** The mutable state of the process that [config.go] reads or writes:
    the current working directory ([os.Chdir], [os.Getwd]) and the lines
    written by [fmt.Println]. *)
Record proc : Type := mkProc {
  cwd : string;
  stdout : list string
}.

Definition set_cwd (d : string) (p : proc) : proc := mkProc d (stdout p).

Definition Println (s : string) (p : proc) : proc :=
  mkProc (cwd p) (stdout p ++ [s]).

(** What the code calls and does not define.  Functions that depend on
    the working directory of the process take it as first argument.

    - [on_windows] is the test [runtime.GOOS == PlatformWindows]
      (the constant [PlatformWindows] is declared in another file);
    - [viper_ReadInConfig] and [viper_Unmarshal] stand for the [viper]
      instance built in [readConfig] for one path, environment overrides
      included;
    - [expandPath], [cleanPath] and [adaptToVariousPlatforms] are helpers
      of package [runner] declared outside [config.go]; nothing is assumed
      about them here, and each theorem states what it needs. *)
Record Host : Type := mkHost {
  on_windows : bool;
  os_Getenv : string -> string;
  os_Getwd : string -> string * option error;
  os_Chdir : string -> string -> result string;
  filepath_Join : string -> string -> string;
  filepath_Abs : string -> string -> string * option error;
  filepath_Rel : string -> string -> string * option error;
  viper_ReadInConfig : string -> string -> option error;
  viper_Unmarshal : string -> string -> config * option error;
  expandPath : string -> string -> string * option error;
  cleanPath : string -> string;
  adaptToVariousPlatforms : config -> config
}.

(** ** Default Provider *)

Definition defaultConfig (H : Host) : config :=
  let build :=
    cfgBuild.mk "go build -o ./tmp/main ." "./tmp/main" "" "build-errors.log"
      ["go"; "tpl"; "tmpl"; "html"] ["assets"; "tmp"; "vendor"] [] []
      1000 true false 0 in
  let build :=
    if on_windows H then
      cfgBuild.mk "go build -o ./tmp/main.exe ." "tmp\main.exe"
        (cfgBuild.FullBin build) (cfgBuild.Log build)
        (cfgBuild.IncludeExt build) (cfgBuild.ExcludeDir build)
        (cfgBuild.IncludeDir build) (cfgBuild.ExcludeFile build)
        (cfgBuild.Delay build) (cfgBuild.StopOnError build)
        (cfgBuild.SendInterrupt build) (cfgBuild.KillDelay build)
    else build in
  let log := cfgLog.mk false in
  let color := cfgColor.mk "magenta" "cyan" "yellow" "green" "" in
  let misc := cfgMisc.mk false in
  mkConfig "." "tmp" build color log misc.

(** ** mergo.Merge

    [mergo.Merge(dst, src)] without options walks the two structs field
    by field, descends into nested structs, and for a field of any other
    kind assigns [src] to [dst] when [dst] is empty and [src] is not.
    Empty means: [""] for a string, length 0 for a slice, 0 for an
    integer, [false] for a boolean. *)

Definition isEmptyString (s : string) : bool := String.eqb s "".
Definition isEmptySlice (l : list string) : bool := Nat.eqb (length l) 0.
Definition isEmptyInt (z : Z) : bool := Z.eqb z 0.
Definition isEmptyBool (b : bool) : bool := negb b.

Definition mergeLeaf {A : Type} (empty : A -> bool) (dst src : A) : A :=
  if empty dst && negb (empty src) then src else dst.

Definition mergeBuild (dst src : cfgBuild.t) : cfgBuild.t :=
  cfgBuild.mk
    (mergeLeaf isEmptyString (cfgBuild.Cmd dst) (cfgBuild.Cmd src))
    (mergeLeaf isEmptyString (cfgBuild.Bin dst) (cfgBuild.Bin src))
    (mergeLeaf isEmptyString (cfgBuild.FullBin dst) (cfgBuild.FullBin src))
    (mergeLeaf isEmptyString (cfgBuild.Log dst) (cfgBuild.Log src))
    (mergeLeaf isEmptySlice (cfgBuild.IncludeExt dst) (cfgBuild.IncludeExt src))
    (mergeLeaf isEmptySlice (cfgBuild.ExcludeDir dst) (cfgBuild.ExcludeDir src))
    (mergeLeaf isEmptySlice (cfgBuild.IncludeDir dst) (cfgBuild.IncludeDir src))
    (mergeLeaf isEmptySlice (cfgBuild.ExcludeFile dst) (cfgBuild.ExcludeFile src))
    (mergeLeaf isEmptyInt (cfgBuild.Delay dst) (cfgBuild.Delay src))
    (mergeLeaf isEmptyBool (cfgBuild.StopOnError dst) (cfgBuild.StopOnError src))
    (mergeLeaf isEmptyBool (cfgBuild.SendInterrupt dst) (cfgBuild.SendInterrupt src))
    (mergeLeaf isEmptyInt (cfgBuild.KillDelay dst) (cfgBuild.KillDelay src)).

Definition mergeColor (dst src : cfgColor.t) : cfgColor.t :=
  cfgColor.mk
    (mergeLeaf isEmptyString (cfgColor.Main dst) (cfgColor.Main src))
    (mergeLeaf isEmptyString (cfgColor.Watcher dst) (cfgColor.Watcher src))
    (mergeLeaf isEmptyString (cfgColor.Build dst) (cfgColor.Build src))
    (mergeLeaf isEmptyString (cfgColor.Runner dst) (cfgColor.Runner src))
    (mergeLeaf isEmptyString (cfgColor.App dst) (cfgColor.App src)).

Definition mergeLog (dst src : cfgLog.t) : cfgLog.t :=
  cfgLog.mk (mergeLeaf isEmptyBool (cfgLog.AddTime dst) (cfgLog.AddTime src)).

Definition mergeMisc (dst src : cfgMisc.t) : cfgMisc.t :=
  cfgMisc.mk
    (mergeLeaf isEmptyBool (cfgMisc.CleanOnExit dst) (cfgMisc.CleanOnExit src)).

Definition mergeConfig (dst src : config) : config :=
  mkConfig
    (mergeLeaf isEmptyString (Root dst) (Root src))
    (mergeLeaf isEmptyString (TmpDir dst) (TmpDir src))
    (mergeBuild (Build dst) (Build src))
    (mergeColor (Color dst) (Color src))
    (mergeLog (Log dst) (Log src))
    (mergeMisc (Misc dst) (Misc src)).

(** [mergo.Merge(cfg, src)] on a [*config]: a nil destination is refused,
    otherwise the merge of two values of the same struct type succeeds. *)
Definition mergo_Merge (dst : option config) (src : config)
  : option config * option error :=
  match dst with
  | None => (None, Some "src and dst must not be nil")
  | Some d => (Some (mergeConfig d src), None)
  end.

(** ** Source Loader *)

Definition readConfig (H : Host) (p : proc) (path : string)
  : option config * option error :=
  match viper_ReadInConfig H (cwd p) path with
  | Some err => (None, Some (wrap "error read config" err))
  | None =>
      let '(cfg, err) := viper_Unmarshal H (cwd p) path in
      match err with
      | Some err => (None, Some (wrap "error parse config" err))
      | None => (Some cfg, None)
      end
  end.

Definition readConfigOrDefault (H : Host) (p : proc) (path : string)
  : option config * option error :=
  let dftCfg := defaultConfig H in
  let '(cfg, err) := readConfig H p path in
  match err with
  | Some err => (Some dftCfg, Some err)
  | None => (cfg, None)
  end.

(** ** Discovery Strategy *)

Definition readConfByName (H : Host) (p : proc) (name : string)
  : option config * option error :=
  let wd := os_Getenv H airWd in
  if negb (String.eqb wd "") then
    readConfig H p (filepath_Join H wd name)
  else
    let '(wd, err) := os_Getwd H (cwd p) in
    match err with
    | Some err => (None, Some err)
    | None => readConfig H p (filepath_Join H wd name)
    end.

Definition deprecationNotice : string :=
  "`.air.conf` will be deprecated soon, recommend using `.air.toml`.".

(** The [for _, name := range names] loop of [defaultPathConfig], with the
    two statements after the loop as its base case. *)
Fixpoint probe (H : Host) (p : proc) (names : list string)
  : proc * option config * option error :=
  match names with
  | [] =>
      let dftCfg := defaultConfig H in
      (p, Some dftCfg, None)
  | name :: names =>
      let '(cfg, err) := readConfByName H p name in
      match err with
      | None =>
          let p := if String.eqb name dftConf
                   then Println deprecationNotice p else p in
          (p, cfg, None)
      | Some _ => probe H p names
      end
  end.

Definition defaultPathConfig (H : Host) (p : proc)
  : proc * option config * option error :=
  probe H p [dftYAML; dftTOML; dftConf].

(** ** Merge & Adapt Engine *)

(** The method [(c *config) preprocess]: the receiver is updated in place,
    so the configuration is returned together with the error, and it keeps
    the assignments made before an early [return]. *)
Definition preprocess (H : Host) (p : proc) (c : config)
  : proc * config * option error :=
  let wd := os_Getenv H airWd in
  let entered :=
    if negb (String.eqb wd "") then
      match os_Chdir H (cwd p) wd with
      | Err err => Err err
      | Ok d => Ok (set_cwd d p, set_Root wd c)
      end
    else Ok (p, c) in
  match entered with
  | Err err => (p, c, Some err)
  | Ok (p, c) =>
      let '(root, err) := expandPath H (cwd p) (Root c) in
      let c := set_Root root c in
      let c := if String.eqb (TmpDir c) "" then set_TmpDir "tmp" c else c in
      match err with
      | Some err => (p, c, Some err)
      | None =>
          (* [ed] is the slice held by the configuration: cleaning it
             entry by entry is seen through [c.Build.ExcludeDir] too *)
          let ed := map (cleanPath H) (cfgBuild.ExcludeDir (Build c)) in
          let c := set_Build_ExcludeDir ed c in
          let c := adaptToVariousPlatforms H c in
          let c := set_Build_ExcludeDir ed c in
          if (0 <? String.length (cfgBuild.FullBin (Build c)))%nat then
            (p, set_Build_Bin (cfgBuild.FullBin (Build c)) c, None)
          else
            let '(bin, err) := filepath_Abs H (cwd p) (cfgBuild.Bin (Build c)) in
            (p, set_Build_Bin bin c, err)
      end
  end.

(** Lines 74 to 79 of [initConfig]: what happens to the configuration
    obtained from the file, or from discovery, once it has been read. *)
Definition finalize (H : Host) (p : proc) (cfg : option config)
  : proc * option config * option error :=
  let '(cfg, err) := mergo_Merge cfg (defaultConfig H) in
  match err, cfg with
  | Some err, _ => (p, None, Some err)
  | None, None => (p, None, Some "src and dst must not be nil")
  | None, Some c =>
      let '(p, c, err) := preprocess H p c in
      (p, Some c, err)
  end.

Definition initConfig (H : Host) (p : proc) (path : string)
  : proc * option config * option error :=
  if String.eqb path "" then
    let '(p, cfg, err) := defaultPathConfig H p in
    match err with
    | Some err => (p, None, Some err)
    | None => finalize H p cfg
    end
  else
    let '(cfg, err) := readConfigOrDefault H p path in
    match err with
    | Some err => (p, None, Some err)
    | None => finalize H p cfg
    end.

(** ** Accessors *)

Definition colorInfo (c : config) : gmap string string :=
  {[ "main" := cfgColor.Main (Color c);
     "build" := cfgColor.Build (Color c);
     "runner" := cfgColor.Runner (Color c);
     "watcher" := cfgColor.Watcher (Color c) ]}.

Definition tmpPath (H : Host) (c : config) : string :=
  filepath_Join H (Root c) (TmpDir c).

Definition buildLogPath (H : Host) (c : config) : string :=
  filepath_Join H (tmpPath H c) (cfgBuild.Log (Build c)).

Definition binPath (H : Host) (c : config) : string :=
  filepath_Join H (Root c) (cfgBuild.Bin (Build c)).

Definition rel (H : Host) (c : config) (path : string) : string :=
  let '(s, err) := filepath_Rel H (Root c) path in
  match err with
  | Some _ => ""
  | None => s
  end.

(** ** The fields of a configuration

    The leaves of the struct [config], so that a statement can range over
    "every field".  [get] reads a leaf as a [value]; [isEmptyValue] is the
    test [mergo] applies to it. *)

Inductive value : Type :=
| VString (s : string)
| VSlice (l : list string)
| VInt (z : Z)
| VBool (b : bool).

Definition isEmptyValue (v : value) : bool :=
  match v with
  | VString s => isEmptyString s
  | VSlice l => isEmptySlice l
  | VInt z => isEmptyInt z
  | VBool b => isEmptyBool b
  end.

Inductive field : Type :=
| F_Root | F_TmpDir
| F_Build_Cmd | F_Build_Bin | F_Build_FullBin | F_Build_Log
| F_Build_IncludeExt | F_Build_ExcludeDir | F_Build_IncludeDir
| F_Build_ExcludeFile | F_Build_Delay | F_Build_StopOnError
| F_Build_SendInterrupt | F_Build_KillDelay
| F_Color_Main | F_Color_Watcher | F_Color_Build | F_Color_Runner
| F_Color_App
| F_Log_AddTime
| F_Misc_CleanOnExit.

Definition get (F : field) (c : config) : value :=
  match F with
  | F_Root => VString (Root c)
  | F_TmpDir => VString (TmpDir c)
  | F_Build_Cmd => VString (cfgBuild.Cmd (Build c))
  | F_Build_Bin => VString (cfgBuild.Bin (Build c))
  | F_Build_FullBin => VString (cfgBuild.FullBin (Build c))
  | F_Build_Log => VString (cfgBuild.Log (Build c))
  | F_Build_IncludeExt => VSlice (cfgBuild.IncludeExt (Build c))
  | F_Build_ExcludeDir => VSlice (cfgBuild.ExcludeDir (Build c))
  | F_Build_IncludeDir => VSlice (cfgBuild.IncludeDir (Build c))
  | F_Build_ExcludeFile => VSlice (cfgBuild.ExcludeFile (Build c))
  | F_Build_Delay => VInt (cfgBuild.Delay (Build c))
  | F_Build_StopOnError => VBool (cfgBuild.StopOnError (Build c))
  | F_Build_SendInterrupt => VBool (cfgBuild.SendInterrupt (Build c))
  | F_Build_KillDelay => VInt (cfgBuild.KillDelay (Build c))
  | F_Color_Main => VString (cfgColor.Main (Color c))
  | F_Color_Watcher => VString (cfgColor.Watcher (Color c))
  | F_Color_Build => VString (cfgColor.Build (Color c))
  | F_Color_Runner => VString (cfgColor.Runner (Color c))
  | F_Color_App => VString (cfgColor.App (Color c))
  | F_Log_AddTime => VBool (cfgLog.AddTime (Log c))
  | F_Misc_CleanOnExit => VBool (cfgMisc.CleanOnExit (Misc c))
  end.

(** The fields [preprocess] normalises on purpose: the root is expanded,
    the excluded directories are cleaned, the binary is made absolute or
    replaced by [full_bin]. *)
Definition normalised (F : field) : bool :=
  match F with
  | F_Root | F_Build_Bin | F_Build_ExcludeDir => true
  | _ => false
  end.

(** What a theorem may need from the platform adaptation, which is not
    defined in [config.go]: that it does not rewrite the field [F]. *)
Definition adapt_keeps (H : Host) (F : field) : Prop :=
  forall c, get F (adaptToVariousPlatforms H c) = get F c.

(** The value merge precedence promises for field [F]. *)
Definition precedence (F : field) (loaded dflt : config) : value :=
  if isEmptyValue (get F loaded) then get F dflt else get F loaded.

(** [H] with another [filepath.Abs]. *)
Definition with_Abs (abs : string -> string -> string * option error)
  (H : Host) : Host :=
  mkHost (on_windows H) (os_Getenv H) (os_Getwd H) (os_Chdir H)
    (filepath_Join H) abs (filepath_Rel H) (viper_ReadInConfig H)
    (viper_Unmarshal H) (expandPath H) (cleanPath H)
    (adaptToVariousPlatforms H).

(** ** A concrete host for the examples

    A Unix machine: [air_wd] holds [wd], the files of [files] exist and
    parse to the configuration next to them, everything else is missing.
    The path functions are simple stand-ins that agree with the real ones
    on the paths used in the examples. *)
Module Sample.

Fixpoint lookupFile (files : list (string * config)) (path : string)
  : option config :=
  match files with
  | [] => None
  | (name, cfg) :: files =>
      if String.eqb name path then Some cfg else lookupFile files path
  end.

Definition isAbs (path : string) : bool := String.prefix "/" path.

Definition dropDotSlash (path : string) : string :=
  if String.prefix "./" path
  then String.substring 2 (String.length path - 2) path
  else path.

Definition abs (wd path : string) : string * option error :=
  if isAbs path then (path, None)
  else (wd +:+ "/" +:+ dropDotSlash path, None).

Definition relTo (base targ : string) : string * option error :=
  if String.prefix (base +:+ "/") targ
  then (String.substring (String.length base + 1)
          (String.length targ - (String.length base + 1)) targ, None)
  else ("", Some ("Rel: can't make " +:+ targ +:+ " relative to " +:+ base)).

Definition dirs : list string := ["/work"; "/srv/app"].

Definition host (wd : string) (files : list (string * config)) : Host :=
  mkHost false
    (fun key => if String.eqb key airWd then wd else "")
    (fun cwd => (cwd, None))
    (fun cwd dir =>
       if existsb (String.eqb dir) dirs then Ok dir
       else Err ("chdir " +:+ dir +:+ ": no such file or directory"))
    (fun dir name => dir +:+ "/" +:+ name)
    abs
    relTo
    (fun cwd path =>
       match lookupFile files (abs cwd path).1 with
       | Some _ => None
       | None => Some ("open " +:+ path +:+ ": no such file or directory")
       end)
    (fun cwd path =>
       match lookupFile files (abs cwd path).1 with
       | Some cfg => (cfg, None)
       | None => (zeroConfig, Some "no configuration has been read")
       end)
    (fun cwd path => if String.eqb path "." then (cwd, None) else (path, None))
    dropDotSlash
    (fun c => c).

Definition start : proc := mkProc "/work" [].

(** A file that only holds [build.cmd = "make"]. *)
Definition onlyCmd : config :=
  set_Build
    (cfgBuild.mk "make" "" "" "" [] [] [] [] 0 false false 0) zeroConfig.

(** A file that sets both [build.bin] and [build.full_bin]. *)
Definition binAndFullBin : config :=
  set_Build
    (cfgBuild.mk "" "bin/app" "/custom/path" "" [] [] [] [] 0 false false 0)
    zeroConfig.

End Sample.

(** ** Two sentences of the specification, as they are written

    They are stated here to be compared with what the code does. *)

(** "For all fields F, if a loaded config sets F to a non-zero value, the
    finalized config's F equals the loaded value; if unset, it equals the
    default value." *)
Definition merge_precedence_as_stated (H : Host) (p : proc)
  (loaded : config) (F : field) : Prop :=
  forall p' c err,
    finalize H p (Some loaded) = (p', Some c, err) ->
    get F c = precedence F loaded (defaultConfig H).

(** "If loading [an explicit path] fails, the caller still receives a
    usable Configuration by falling back to defaults." *)
Definition explicit_failure_keeps_config (H : Host) (p : proc)
  (path : string) : Prop :=
  path <> "" ->
  is_Some (readConfig H p path).2 ->
  is_Some (initConfig H p path).1.2.

(** ** The rebuild delay

    [time.Duration] is an [int64] counting nanoseconds, and its product
    with [time.Millisecond] wraps around like any [int64] product.  The
    field [Delay] is a Go [int], taken here to be 64 bits wide. *)

Definition int64_wrap (z : Z) : Z := (z + 2 ^ 63) mod 2 ^ 64 - 2 ^ 63.

Definition Millisecond : Z := 1000000.

Definition buildDelay (c : config) : Z :=
  int64_wrap (int64_wrap (cfgBuild.Delay (Build c)) * Millisecond).

(** ** Variations of a host and of a configuration *)

(** [H] with another [os.Getwd]. *)
Definition with_Getwd (getwd : string -> string * option error)
  (H : Host) : Host :=
  mkHost (on_windows H) (os_Getenv H) getwd (os_Chdir H)
    (filepath_Join H) (filepath_Abs H) (filepath_Rel H)
    (viper_ReadInConfig H) (viper_Unmarshal H) (expandPath H) (cleanPath H)
    (adaptToVariousPlatforms H).

(** [H] with another [viper.Unmarshal]. *)
Definition with_Unmarshal (unmarshal : string -> string -> config * option error)
  (H : Host) : Host :=
  mkHost (on_windows H) (os_Getenv H) (os_Getwd H) (os_Chdir H)
    (filepath_Join H) (filepath_Abs H) (filepath_Rel H)
    (viper_ReadInConfig H) unmarshal (expandPath H) (cleanPath H)
    (adaptToVariousPlatforms H).

(** [H] on another platform: [windows] is the new outcome of the test
    [runtime.GOOS == PlatformWindows]. *)
Definition with_platform (windows : bool) (H : Host) : Host :=
  mkHost windows (os_Getenv H) (os_Getwd H) (os_Chdir H)
    (filepath_Join H) (filepath_Abs H) (filepath_Rel H)
    (viper_ReadInConfig H) (viper_Unmarshal H) (expandPath H) (cleanPath H)
    (adaptToVariousPlatforms H).

(** The fields whose default depends on the platform. *)
Definition platform_default (F : field) : bool :=
  match F with
  | F_Build_Cmd | F_Build_Bin => true
  | _ => false
  end.

(** The fields read by [colorInfo]. *)
Definition colour_fields : list field :=
  [F_Color_Main; F_Color_Build; F_Color_Runner; F_Color_Watcher].

(** * Properties *)

(** ** The merge *)

Lemma isEmptyString_true s : isEmptyString s = true -> s = "".
Proof. unfold isEmptyString. apply String.eqb_eq. Qed.

Lemma isEmptySlice_true l : isEmptySlice l = true -> l = [].
Proof. destruct l; [reflexivity | discriminate]. Qed.

Lemma isEmptyInt_true z : isEmptyInt z = true -> z = 0.
Proof. unfold isEmptyInt. apply Z.eqb_eq. Qed.

Lemma isEmptyBool_true b : isEmptyBool b = true -> b = false.
Proof. destruct b; [discriminate | reflexivity]. Qed.

(** When the emptiness test picks out a single value, [mergeLeaf] is a
    plain choice: the source when the destination is empty, and the
    destination otherwise. *)
Lemma mergeLeaf_choice {A : Type} (empty : A -> bool) (z : A) :
  (forall a, empty a = true -> a = z) ->
  forall dst src,
    mergeLeaf empty dst src = if empty dst then src else dst.
Proof.
  intros Hz dst src. unfold mergeLeaf.
  destruct (empty dst) eqn:Hd; [| reflexivity].
  destruct (empty src) eqn:Hs; [| reflexivity].
  cbn. rewrite (Hz _ Hd), (Hz _ Hs). reflexivity.
Qed.

Lemma mergeString_choice dst src :
  mergeLeaf isEmptyString dst src = if isEmptyString dst then src else dst.
Proof. apply (mergeLeaf_choice _ ""), isEmptyString_true. Qed.

Lemma mergeSlice_choice dst src :
  mergeLeaf isEmptySlice dst src = if isEmptySlice dst then src else dst.
Proof. apply (mergeLeaf_choice _ []), isEmptySlice_true. Qed.

Lemma mergeInt_choice dst src :
  mergeLeaf isEmptyInt dst src = if isEmptyInt dst then src else dst.
Proof. apply (mergeLeaf_choice _ 0), isEmptyInt_true. Qed.

Lemma mergeBool_choice dst src :
  mergeLeaf isEmptyBool dst src = if isEmptyBool dst then src else dst.
Proof. apply (mergeLeaf_choice _ false), isEmptyBool_true. Qed.

(** Field by field, the merged configuration holds the destination's
    value when that is set and the source's value otherwise. *)
Lemma get_mergeConfig (F : field) (dst src : config) :
  get F (mergeConfig dst src) = precedence F dst src.
Proof.
  unfold precedence.
  destruct F; cbn [get mergeConfig mergeBuild mergeColor mergeLog mergeMisc
    Root TmpDir Build Color Log Misc
    cfgBuild.Cmd cfgBuild.Bin cfgBuild.FullBin cfgBuild.Log
    cfgBuild.IncludeExt cfgBuild.ExcludeDir cfgBuild.IncludeDir
    cfgBuild.ExcludeFile cfgBuild.Delay cfgBuild.StopOnError
    cfgBuild.SendInterrupt cfgBuild.KillDelay
    cfgColor.Main cfgColor.Watcher cfgColor.Build cfgColor.Runner cfgColor.App
    cfgLog.AddTime cfgMisc.CleanOnExit isEmptyValue];
    rewrite ?mergeString_choice, ?mergeSlice_choice, ?mergeInt_choice,
      ?mergeBool_choice;
    match goal with |- context [if ?b then _ else _] => destruct b end;
    reflexivity.
Qed.

(** A second merge with the same source changes nothing. *)
Lemma mergeLeaf_idem {A : Type} (empty : A -> bool) (x : A) :
  mergeLeaf empty x x = x.
Proof. unfold mergeLeaf. destruct (empty x && negb (empty x)); reflexivity. Qed.

Lemma mergeConfig_idem (c : config) : mergeConfig c c = c.
Proof.
  destruct c as [r t [] [] [] []].
  unfold mergeConfig, mergeBuild, mergeColor, mergeLog, mergeMisc; cbn.
  rewrite !mergeLeaf_idem. reflexivity.
Qed.

Lemma finalize_Some (H : Host) (p : proc) (loaded : config) :
  finalize H p (Some loaded) =
  let '(p', c, err) := preprocess H p (mergeConfig loaded (defaultConfig H)) in
  (p', Some c, err).
Proof. reflexivity. Qed.

Lemma TmpDir_merged (H : Host) (loaded : config) :
  TmpDir (mergeConfig loaded (defaultConfig H)) =
  if String.eqb (TmpDir loaded) "" then "tmp" else TmpDir loaded.
Proof.
  cbn [mergeConfig TmpDir]. rewrite mergeString_choice. reflexivity.
Qed.

Lemma TmpDir_merged_nonempty (H : Host) (loaded : config) :
  TmpDir (mergeConfig loaded (defaultConfig H)) <> "".
Proof.
  rewrite TmpDir_merged.
  destruct (String.eqb_spec (TmpDir loaded) ""); [discriminate | assumption].
Qed.

(** ** What [preprocess] leaves alone *)

Ltac unfold_setters :=
  cbn [get set_Root set_TmpDir set_Build set_Build_Bin set_Build_ExcludeDir
       Root TmpDir Build Color Log Misc fst snd
       cfgBuild.Cmd cfgBuild.Bin cfgBuild.FullBin cfgBuild.Log
       cfgBuild.IncludeExt cfgBuild.ExcludeDir cfgBuild.IncludeDir
       cfgBuild.ExcludeFile cfgBuild.Delay cfgBuild.StopOnError
       cfgBuild.SendInterrupt cfgBuild.KillDelay] in *.

(** The part of [preprocess] after the working directory has been
    entered keeps every field it does not normalise, provided the
    temporary directory is already named. *)
Ltac frame_after_chdir Hadapt Htmp :=
  destruct (expandPath _ _ _) as [root [e|]];
  unfold_setters;
  match goal with
  | |- context [String.eqb ?t ""] =>
      destruct (String.eqb_spec t "") as [Hempty|Hfull];
      [exfalso; apply Htmp; exact Hempty|]
  end;
  [reflexivity|];
  destruct (0 <? String.length _)%nat;
  [|destruct (filepath_Abs _ _ _) as [bin err]];
  unfold_setters; rewrite Hadapt; reflexivity.

Lemma preprocess_frame (H : Host) (p : proc) (c : config) (F : field) :
  normalised F = false ->
  TmpDir c <> "" ->
  adapt_keeps H F ->
  get F (preprocess H p c).1.2 = get F c.
Proof.
  intros HF Htmp Hadapt. unfold adapt_keeps in Hadapt. unfold preprocess.
  destruct (negb (String.eqb (os_Getenv H airWd) "")).
  - destruct (os_Chdir H (cwd p) (os_Getenv H airWd)) as [d|err];
      [|reflexivity].
    destruct F; try discriminate HF; frame_after_chdir Hadapt Htmp.
  - destruct F; try discriminate HF; frame_after_chdir Hadapt Htmp.
Qed.

Lemma finalize_returns (H : Host) (p : proc) (loaded : config) :
  finalize H p (Some loaded) =
  ((preprocess H p (mergeConfig loaded (defaultConfig H))).1.1,
   Some (preprocess H p (mergeConfig loaded (defaultConfig H))).1.2,
   (preprocess H p (mergeConfig loaded (defaultConfig H))).2).
Proof.
  rewrite finalize_Some.
  destruct (preprocess H p (mergeConfig loaded (defaultConfig H)))
    as [[p' c] err].
  reflexivity.
Qed.

Lemma adapt_keeps_string (H : Host) (F : field) (f : config -> string) :
  (forall c, get F c = VString (f c)) ->
  adapt_keeps H F ->
  forall c, f (adaptToVariousPlatforms H c) = f c.
Proof.
  intros Hget Hadapt c. specialize (Hadapt c).
  rewrite !Hget in Hadapt. congruence.
Qed.

Lemma nonempty_length (s : string) :
  s <> "" -> (0 <? String.length s)%nat = true.
Proof. destruct s; [congruence | reflexivity]. Qed.

(** ** Merge precedence *)

(** C1 (amended): for every loaded configuration and every field F, the
    configuration produced by the merge with the defaults holds the loaded
    value of F when that is non-zero and the default value of F otherwise.
    The finalized configuration still does for every field that
    [preprocess] does not normalise (all but root, build.bin and
    build.exclude_dir) and that the platform adaptation leaves alone; in
    particular a load result that only sets build.cmd to "make" is
    finalized with build.cmd "make" and build.delay 1000. *)
Theorem merge_precedence (H : Host) (p : proc) (loaded : config) (F : field) :
  get F (mergeConfig loaded (defaultConfig H))
    = precedence F loaded (defaultConfig H)
  /\ (normalised F = false -> adapt_keeps H F ->
      exists p' c err,
        finalize H p (Some loaded) = (p', Some c, err) /\
        get F c = precedence F loaded (defaultConfig H))
  /\ (adapt_keeps H F_Build_Cmd -> adapt_keeps H F_Build_Delay ->
      exists p' c err,
        finalize H p (Some Sample.onlyCmd) = (p', Some c, err) /\
        cfgBuild.Cmd (Build c) = "make" /\ cfgBuild.Delay (Build c) = 1000).
Proof.
  assert (Hfin : forall l G, normalised G = false -> adapt_keeps H G ->
            exists p' c err,
              finalize H p (Some l) = (p', Some c, err) /\
              get G c = precedence G l (defaultConfig H)).
  { intros l G HG Hadapt. eexists _, _, _. split; [apply finalize_returns|].
    rewrite preprocess_frame by auto using TmpDir_merged_nonempty.
    apply get_mergeConfig. }
  split; [apply get_mergeConfig|]. split; [apply Hfin|].
  intros Hcmd Hdelay.
  destruct (Hfin Sample.onlyCmd F_Build_Cmd eq_refl Hcmd)
    as (p1 & c1 & e1 & Hrun1 & Hc1).
  destruct (Hfin Sample.onlyCmd F_Build_Delay eq_refl Hdelay)
    as (p2 & c2 & e2 & Hrun2 & Hc2).
  rewrite Hrun1 in Hrun2. injection Hrun2 as <- <- <-.
  exists p1, c1, e1. split; [exact Hrun1|].
  unfold precedence, defaultConfig in Hc1, Hc2.
  destruct (on_windows H); cbn in Hc1, Hc2; split; congruence.
Qed.

(** ** Boolean fields *)

(** C8: whenever the loaded configuration holds [false] for
    build.stop_on_error, which is what both an absent key and an explicit
    [false] decode to, the finalized configuration holds [true]. *)
Theorem stopOnError_false_is_unset (H : Host) (p : proc) (loaded : config) :
  adapt_keeps H F_Build_StopOnError ->
  cfgBuild.StopOnError (Build loaded) = false ->
  exists p' c err,
    finalize H p (Some loaded) = (p', Some c, err) /\
    cfgBuild.StopOnError (Build c) = true.
Proof.
  intros Hadapt Hfalse.
  eexists _, _, _. split; [apply finalize_returns|].
  assert (Hget : get F_Build_StopOnError
                   (preprocess H p (mergeConfig loaded (defaultConfig H))).1.2
                 = VBool true).
  { rewrite preprocess_frame by auto using TmpDir_merged_nonempty.
    rewrite get_mergeConfig. unfold precedence. cbn [get isEmptyValue].
    rewrite Hfalse. cbn. destruct (on_windows H); reflexivity. }
  cbn [get] in Hget. congruence.
Qed.

(** ** The temporary directory *)

Lemma preprocess_TmpDir (H : Host) (p : proc) (c : config) :
  adapt_keeps H F_TmpDir ->
  (preprocess H p c).2 = None ->
  TmpDir (preprocess H p c).1.2 <> "".
Proof.
  intros Hadapt.
  pose proof (adapt_keeps_string H F_TmpDir TmpDir (fun _ => eq_refl) Hadapt)
    as Hkeep.
  unfold preprocess.
  destruct (negb (String.eqb (os_Getenv H airWd) ""));
    [destruct (os_Chdir H (cwd p) (os_Getenv H airWd)) as [d|err];
     [|discriminate]|];
    (destruct (expandPath _ _ _) as [root [e|]]; [discriminate|]);
    (destruct (0 <? String.length _)%nat;
     [|destruct (filepath_Abs _ _ _) as [bin err]]);
    intros _; unfold_setters; rewrite Hkeep; unfold_setters;
    match goal with
    | |- context [String.eqb ?t ""] => destruct (String.eqb_spec t "")
    end; unfold_setters; congruence.
Qed.

(** C7: whatever the loaded configuration holds for tmp_dir, the empty
    string included, the finalized tmp_dir is not empty, and it is "tmp"
    when the loaded one was empty; [preprocess] alone already guarantees a
    non-empty tmp_dir whenever it succeeds. *)
Theorem tmpDir_never_empty (H : Host) (p : proc) (loaded : config) :
  adapt_keeps H F_TmpDir ->
  (exists p' c err,
     finalize H p (Some loaded) = (p', Some c, err) /\
     TmpDir c <> "" /\
     (TmpDir loaded = "" -> TmpDir c = "tmp"))
  /\ (forall c0, (preprocess H p c0).2 = None ->
                 TmpDir (preprocess H p c0).1.2 <> "").
Proof.
  intros Hadapt. split; [|intros c0; apply preprocess_TmpDir, Hadapt].
  eexists _, _, _. split; [apply finalize_returns|].
  assert (Hget : get F_TmpDir
                   (preprocess H p (mergeConfig loaded (defaultConfig H))).1.2
                 = VString (TmpDir (mergeConfig loaded (defaultConfig H)))).
  { rewrite preprocess_frame by auto using TmpDir_merged_nonempty.
    reflexivity. }
  cbn [get] in Hget.
  assert (Heq : TmpDir (preprocess H p
                          (mergeConfig loaded (defaultConfig H))).1.2
                = TmpDir (mergeConfig loaded (defaultConfig H)))
    by congruence.
  rewrite Heq. split.
  - apply TmpDir_merged_nonempty.
  - intros Hempty. rewrite TmpDir_merged, Hempty. reflexivity.
Qed.

(** ** The binary *)

Lemma FullBin_merged (H : Host) (loaded : config) :
  cfgBuild.FullBin (Build loaded) <> "" ->
  cfgBuild.FullBin (Build (mergeConfig loaded (defaultConfig H)))
  = cfgBuild.FullBin (Build loaded).
Proof.
  intros Hset. cbn [mergeConfig mergeBuild Build cfgBuild.FullBin].
  rewrite mergeString_choice. unfold isEmptyString.
  destruct (String.eqb_spec (cfgBuild.FullBin (Build loaded)) "");
    [contradiction | reflexivity].
Qed.

Lemma preprocess_fullBin (H : Host) (p : proc) (c : config) :
  adapt_keeps H F_Build_FullBin ->
  cfgBuild.FullBin (Build c) <> "" ->
  (preprocess H p c).2 = None ->
  cfgBuild.Bin (Build (preprocess H p c).1.2) = cfgBuild.FullBin (Build c).
Proof.
  intros Hadapt Hset.
  pose proof (adapt_keeps_string H F_Build_FullBin
                (fun c => cfgBuild.FullBin (Build c)) (fun _ => eq_refl) Hadapt)
    as Hkeep.
  unfold preprocess.
  destruct (negb (String.eqb (os_Getenv H airWd) ""));
    [destruct (os_Chdir H (cwd p) (os_Getenv H airWd)) as [d|err];
     [|discriminate]|];
    (destruct (expandPath _ _ _) as [root [e|]]; [discriminate|]);
    unfold_setters; rewrite Hkeep;
    match goal with
    | |- context [String.eqb ?t ""] => destruct (String.eqb t "")
    end; unfold_setters; rewrite (nonempty_length _ Hset);
    intros _; unfold_setters; reflexivity.
Qed.

Lemma preprocess_fullBin_no_Abs (H : Host) (p : proc) (c : config) abs :
  adapt_keeps H F_Build_FullBin ->
  cfgBuild.FullBin (Build c) <> "" ->
  preprocess (with_Abs abs H) p c = preprocess H p c.
Proof.
  intros Hadapt Hset.
  pose proof (adapt_keeps_string H F_Build_FullBin
                (fun c => cfgBuild.FullBin (Build c)) (fun _ => eq_refl) Hadapt)
    as Hkeep.
  unfold preprocess, with_Abs.
  cbn [os_Getenv os_Chdir expandPath cleanPath adaptToVariousPlatforms
       filepath_Abs].
  destruct (negb (String.eqb (os_Getenv H airWd) ""));
    [destruct (os_Chdir H (cwd p) (os_Getenv H airWd)) as [d|err];
     [|reflexivity]|];
    (destruct (expandPath _ _ _) as [root [e|]]; [reflexivity|]);
    unfold_setters; rewrite Hkeep;
    match goal with
    | |- context [String.eqb ?t ""] => destruct (String.eqb t "")
    end; unfold_setters; rewrite (nonempty_length _ Hset); reflexivity.
Qed.

(** C3: when build.full_bin is a non-empty string, a successful
    [preprocess] leaves exactly that string in build.bin, whatever
    build.bin held before, and [filepath.Abs] plays no part in the result:
    any other conversion function gives the same outcome.  The same holds
    for the configuration finalized from a loaded one. *)
Theorem fullBin_short_circuit (H : Host) (p : proc) (c : config) :
  adapt_keeps H F_Build_FullBin ->
  cfgBuild.FullBin (Build c) <> "" ->
  ((preprocess H p c).2 = None ->
   cfgBuild.Bin (Build (preprocess H p c).1.2) = cfgBuild.FullBin (Build c))
  /\ (forall abs, preprocess (with_Abs abs H) p c = preprocess H p c)
  /\ (forall p' c',
        finalize H p (Some c) = (p', Some c', None) ->
        cfgBuild.Bin (Build c') = cfgBuild.FullBin (Build c)).
Proof.
  intros Hadapt Hset. split; [|split].
  - apply preprocess_fullBin; assumption.
  - intros abs. apply preprocess_fullBin_no_Abs; assumption.
  - intros p' c'. rewrite finalize_returns. intros Hrun.
    injection Hrun as _ <- Herr.
    rewrite preprocess_fullBin; try assumption.
    + apply FullBin_merged, Hset.
    + rewrite FullBin_merged; assumption.
Qed.

(** ** The working directory *)

(** C6: when the environment variable [air_wd] holds a non-empty
    directory [d] that the process can enter, [preprocess] replaces the
    root of the configuration, whatever it was, by [d] before expanding
    it: the resulting root is the expansion of [d], computed in the new
    working directory. *)
Theorem working_directory_override (H : Host) (p : proc) (c : config)
  (d wd' : string) :
  adapt_keeps H F_Root ->
  os_Getenv H airWd = d ->
  d <> "" ->
  os_Chdir H (cwd p) d = Ok wd' ->
  Root (preprocess H p c).1.2 = (expandPath H wd' d).1
  /\ cwd (preprocess H p c).1.1 = wd'.
Proof.
  intros Hadapt Henv Hset Hchdir.
  pose proof (adapt_keeps_string H F_Root Root (fun _ => eq_refl) Hadapt)
    as Hkeep.
  unfold preprocess. rewrite Henv.
  destruct (String.eqb_spec d ""); [contradiction|].
  cbn [negb]. rewrite Hchdir. cbn [cwd set_cwd].
  destruct (expandPath H wd' (Root (set_Root d c))) as [root [e|]] eqn:Hexp;
    unfold_setters; rewrite Hexp; cbn [fst].
  - destruct (String.eqb (TmpDir c) ""); split; reflexivity.
  - destruct (0 <? String.length _)%nat;
      [|destruct (filepath_Abs _ _ _) as [bin err]];
      unfold_setters; rewrite Hkeep;
      destruct (String.eqb (TmpDir c) ""); split; reflexivity.
Qed.

(** ** Discovery *)

Lemma readConfig_loaded (H : Host) (p : proc) (path : string) cfg :
  readConfig H p path = (cfg, None) -> is_Some cfg.
Proof.
  unfold readConfig.
  destruct (viper_ReadInConfig H (cwd p) path); [discriminate|].
  destruct (viper_Unmarshal H (cwd p) path) as [c [e|]]; [discriminate|].
  intros [= <-]. eauto.
Qed.

Lemma readConfByName_loaded (H : Host) (p : proc) (name : string) cfg :
  readConfByName H p name = (cfg, None) -> is_Some cfg.
Proof.
  unfold readConfByName.
  destruct (negb (String.eqb (os_Getenv H airWd) ""));
    [apply readConfig_loaded|].
  destruct (os_Getwd H (cwd p)) as [wd [e|]];
    [discriminate | apply readConfig_loaded].
Qed.

(** The loop stops at the first name that can be read. *)
Lemma probe_first (H : Host) (p : proc) (before after : list string)
  (name : string) cfg :
  Forall (fun n => (readConfByName H p n).2 <> None) before ->
  readConfByName H p name = (cfg, None) ->
  probe H p (before ++ name :: after) =
  (if String.eqb name dftConf then Println deprecationNotice p else p,
   cfg, None).
Proof.
  intros Hbefore Hname.
  induction Hbefore as [|n before Hn _ IH]; cbn [app probe].
  - rewrite Hname. reflexivity.
  - destruct (readConfByName H p n) as [c [e|]]; [exact IH|].
    contradiction Hn. reflexivity.
Qed.

(** When no name can be read, the defaults are returned. *)
Lemma probe_none (H : Host) (p : proc) (names : list string) :
  Forall (fun n => (readConfByName H p n).2 <> None) names ->
  probe H p names = (p, Some (defaultConfig H), None).
Proof.
  induction 1 as [|n names Hn _ IH]; cbn [probe]; [reflexivity|].
  destruct (readConfByName H p n) as [c [e|]]; [exact IH|].
  contradiction Hn. reflexivity.
Qed.

Lemma probe_no_error (H : Host) (p : proc) (names : list string) :
  (probe H p names).2 = None.
Proof.
  induction names as [|n names IH]; cbn [probe]; [reflexivity|].
  destruct (readConfByName H p n) as [c [e|]]; [exact IH | reflexivity].
Qed.

(** The outcome of the loop is a function of what reading the listed
    names gives, and of the defaults. *)
Lemma probe_ext (H H' : Host) (p : proc) (names : list string) :
  on_windows H' = on_windows H ->
  Forall (fun n => readConfByName H' p n = readConfByName H p n) names ->
  probe H' p names = probe H p names.
Proof.
  intros Hos. induction 1 as [|n names Hn _ IH]; cbn [probe].
  - unfold defaultConfig. rewrite Hos. reflexivity.
  - rewrite Hn, IH. reflexivity.
Qed.

(** C4: discovery reads the names ".air.yaml", ".air.toml" and ".air.conf"
    in this order and returns the configuration of the first one that can
    be read: the YAML file whenever it parses (whether or not the TOML file
    parses too), the TOML file when the YAML one fails, the legacy file,
    with a deprecation notice, when both fail.  Nothing else is consulted:
    two hosts that agree on these three names and on the defaults give the
    same outcome. *)
Theorem discovery_priority (H : Host) (p : proc) :
  [dftYAML; dftTOML; dftConf] = [".air.yaml"; ".air.toml"; ".air.conf"]
  /\ (forall cfg,
        readConfByName H p dftYAML = (cfg, None) ->
        defaultPathConfig H p = (p, cfg, None) /\ is_Some cfg)
  /\ (forall cfg,
        (readConfByName H p dftYAML).2 <> None ->
        readConfByName H p dftTOML = (cfg, None) ->
        defaultPathConfig H p = (p, cfg, None) /\ is_Some cfg)
  /\ (forall cfg,
        (readConfByName H p dftYAML).2 <> None ->
        (readConfByName H p dftTOML).2 <> None ->
        readConfByName H p dftConf = (cfg, None) ->
        defaultPathConfig H p = (Println deprecationNotice p, cfg, None)
        /\ is_Some cfg)
  /\ (forall H',
        on_windows H' = on_windows H ->
        Forall (fun n => readConfByName H' p n = readConfByName H p n)
          [dftYAML; dftTOML; dftConf] ->
        defaultPathConfig H' p = defaultPathConfig H p).
Proof.
  split; [reflexivity|]. unfold defaultPathConfig. repeat split.
  - apply (probe_first H p [] [dftTOML; dftConf] dftYAML); auto.
  - eapply readConfByName_loaded; eassumption.
  - apply (probe_first H p [dftYAML] [dftConf] dftTOML); auto.
  - eapply readConfByName_loaded; eassumption.
  - apply (probe_first H p [dftYAML; dftTOML] [] dftConf); auto.
  - eapply readConfByName_loaded; eassumption.
  - intros H' Hos Hsame. apply probe_ext; assumption.
Qed.

Lemma finalize_default (H : Host) (p : proc) :
  finalize H p (Some (defaultConfig H)) =
  ((preprocess H p (defaultConfig H)).1.1,
   Some (preprocess H p (defaultConfig H)).1.2,
   (preprocess H p (defaultConfig H)).2).
Proof. rewrite finalize_returns, mergeConfig_idem. reflexivity. Qed.

(** C5: discovery never reports an error.  When none of the three names
    can be read, it returns the default configuration, untouched, with no
    error and without printing anything; [initConfig] with an empty path
    then finalizes exactly that default configuration, so that a failure
    to read or parse a conventional file never reaches its caller. *)
Theorem graceful_fallback (H : Host) (p : proc) :
  (defaultPathConfig H p).2 = None
  /\ (Forall (fun n => (readConfByName H p n).2 <> None)
        [dftYAML; dftTOML; dftConf] ->
      defaultPathConfig H p = (p, Some (defaultConfig H), None)
      /\ initConfig H p "" =
         ((preprocess H p (defaultConfig H)).1.1,
          Some (preprocess H p (defaultConfig H)).1.2,
          (preprocess H p (defaultConfig H)).2)).
Proof.
  split; [apply probe_no_error|]. intros Hnone.
  assert (Hd : defaultPathConfig H p = (p, Some (defaultConfig H), None))
    by (apply probe_none, Hnone).
  split; [exact Hd|].
  unfold initConfig. cbn [String.eqb]. rewrite Hd. apply finalize_default.
Qed.

(** ** An explicit path that cannot be loaded *)

(** C2 (amended): when the load of a non-empty explicit path fails,
    [readConfigOrDefault] returns the default configuration together with
    the load error; [initConfig] passes the error on to its caller and
    returns no configuration with it. *)
Theorem explicit_load_failure (H : Host) (p : proc) (path : string)
  (e : error) :
  path <> "" ->
  (readConfig H p path).2 = Some e ->
  readConfigOrDefault H p path = (Some (defaultConfig H), Some e)
  /\ initConfig H p path = (p, None, Some e).
Proof.
  intros Hpath Hfail.
  assert (Hr : readConfigOrDefault H p path
               = (Some (defaultConfig H), Some e)).
  { unfold readConfigOrDefault.
    destruct (readConfig H p path) as [cfg err]. cbn in Hfail.
    rewrite Hfail. reflexivity. }
  split; [exact Hr|].
  unfold initConfig.
  destruct (String.eqb_spec path ""); [contradiction|].
  rewrite Hr. reflexivity.
Qed.

(** ** Accessors *)

(** C9: [rel] always returns a string: the path that [filepath.Rel]
    computes relative to the root when it succeeds, and the empty string,
    with no error to report, when it fails. *)
Theorem rel_best_effort (H : Host) (c : config) (path : string) :
  (forall s, filepath_Rel H (Root c) path = (s, None) -> rel H c path = s)
  /\ (forall s e,
        filepath_Rel H (Root c) path = (s, Some e) -> rel H c path = "").
Proof.
  unfold rel. split.
  - intros s ->. reflexivity.
  - intros s e ->. reflexivity.
Qed.

(** C10: the table returned by [colorInfo] has exactly the keys "main",
    "build", "runner" and "watcher", each bound to the colour configured
    for it; "app" is not a key, whatever colour is configured for it. *)
Theorem colorInfo_keys (c : config) :
  dom (colorInfo c) = ({[ "main"; "build"; "runner"; "watcher" ]} : gset string)
  /\ colorInfo c !! "main" = Some (cfgColor.Main (Color c))
  /\ colorInfo c !! "build" = Some (cfgColor.Build (Color c))
  /\ colorInfo c !! "runner" = Some (cfgColor.Runner (Color c))
  /\ colorInfo c !! "watcher" = Some (cfgColor.Watcher (Color c))
  /\ colorInfo c !! "app" = None
  /\ size (colorInfo c) = 4%nat.
Proof.
  unfold colorInfo. split_and!.
  - rewrite !dom_insert_L, dom_singleton_L. set_solver.
  - by simplify_map_eq.
  - by simplify_map_eq.
  - by simplify_map_eq.
  - by simplify_map_eq.
  - by simplify_map_eq.
  - rewrite !map_size_insert_None, map_size_singleton; [reflexivity|..];
      by simplify_map_eq.
Qed.

(** * The theorems at work on the sample host *)

Lemma sample_adapt_keeps wd files F : adapt_keeps (Sample.host wd files) F.
Proof. intros c. reflexivity. Defined.

Lemma merge_precedence_witness :
  normalised F_Build_Delay = false
  /\ get F_Build_Delay
       (mergeConfig Sample.onlyCmd (defaultConfig (Sample.host "" [])))
     = VInt 1000
  /\ (exists p' c err,
        finalize (Sample.host "" []) Sample.start (Some Sample.onlyCmd)
          = (p', Some c, err) /\
        get F_Build_Delay c = VInt 1000)
  /\ (exists p' c err,
        finalize (Sample.host "" []) Sample.start (Some Sample.onlyCmd)
          = (p', Some c, err) /\
        cfgBuild.Cmd (Build c) = "make" /\ cfgBuild.Delay (Build c) = 1000).
Proof.
  destruct (merge_precedence (Sample.host "" []) Sample.start Sample.onlyCmd
              F_Build_Delay) as (Hmerged & Hfinal & Hexample).
  split; [reflexivity|]. split; [exact Hmerged|]. split.
  - apply Hfinal; [reflexivity | apply sample_adapt_keeps].
  - apply Hexample; apply sample_adapt_keeps.
Defined.

(** On this host [full_bin] is "/custom/path" and [bin] is "bin/app":
    the finalized [bin] is not the loaded one. *)
Lemma merge_precedence_counterexample :
  ~ merge_precedence_as_stated (Sample.host "" []) Sample.start
      Sample.binAndFullBin F_Build_Bin.
Proof.
  intros Hclaim. specialize (Hclaim _ _ _ eq_refl).
  vm_compute in Hclaim. discriminate Hclaim.
Qed.

Lemma explicit_load_failure_witness :
  "missing.toml" <> ""
  /\ (readConfig (Sample.host "" []) Sample.start "missing.toml").2
     = Some "error read config / open missing.toml: no such file or directory"
  /\ readConfigOrDefault (Sample.host "" []) Sample.start "missing.toml"
     = (Some (defaultConfig (Sample.host "" [])),
        Some "error read config / open missing.toml: no such file or directory")
  /\ initConfig (Sample.host "" []) Sample.start "missing.toml"
     = (Sample.start, None,
        Some "error read config / open missing.toml: no such file or directory").
Proof.
  split; [discriminate|]. split; [reflexivity|].
  apply explicit_load_failure; [discriminate | reflexivity].
Defined.

(** The file "missing.toml" does not exist: [initConfig] returns the error
    and a nil configuration. *)
Lemma explicit_load_failure_counterexample :
  ~ explicit_failure_keeps_config (Sample.host "" []) Sample.start
      "missing.toml".
Proof.
  intros Hclaim.
  destruct Hclaim as [c Hc]; [discriminate | vm_compute; eauto |].
  vm_compute in Hc. discriminate Hc.
Qed.

Lemma fullBin_short_circuit_witness :
  cfgBuild.FullBin (Build Sample.binAndFullBin) <> ""
  /\ (preprocess (Sample.host "" []) Sample.start Sample.binAndFullBin).2
     = None
  /\ cfgBuild.Bin
       (Build (preprocess (Sample.host "" []) Sample.start
                 Sample.binAndFullBin).1.2)
     = "/custom/path"
  /\ preprocess (with_Abs (fun _ _ => ("", Some "no absolute path"))
                   (Sample.host "" []))
       Sample.start Sample.binAndFullBin
     = preprocess (Sample.host "" []) Sample.start Sample.binAndFullBin.
Proof.
  assert (Hset : cfgBuild.FullBin (Build Sample.binAndFullBin) <> "")
    by discriminate.
  destruct (fullBin_short_circuit (Sample.host "" []) Sample.start
              Sample.binAndFullBin
              (sample_adapt_keeps "" [] F_Build_FullBin) Hset)
    as (Hbin & Habs & _).
  split; [exact Hset|]. split; [reflexivity|]. split.
  - apply Hbin. reflexivity.
  - apply Habs.
Defined.

Lemma discovery_priority_witness :
  readConfByName
    (Sample.host "" [("/work/.air.yaml", Sample.binAndFullBin);
                     ("/work/.air.toml", Sample.onlyCmd)])
    Sample.start dftTOML = (Some Sample.onlyCmd, None)
  /\ defaultPathConfig
       (Sample.host "" [("/work/.air.yaml", Sample.binAndFullBin);
                        ("/work/.air.toml", Sample.onlyCmd)])
       Sample.start
     = (Sample.start, Some Sample.binAndFullBin, None)
  /\ defaultPathConfig
       (Sample.host "" [("/work/.air.toml", Sample.onlyCmd);
                        ("/work/.air.conf", Sample.binAndFullBin)])
       Sample.start
     = (Sample.start, Some Sample.onlyCmd, None)
  /\ defaultPathConfig
       (Sample.host "" [("/work/.air.conf", Sample.binAndFullBin)])
       Sample.start
     = (Println deprecationNotice Sample.start, Some Sample.binAndFullBin,
        None).
Proof.
  split; [reflexivity|]. split; [|split].
  - destruct (discovery_priority
                (Sample.host "" [("/work/.air.yaml", Sample.binAndFullBin);
                                 ("/work/.air.toml", Sample.onlyCmd)])
                Sample.start) as (_ & Hyaml & _).
    apply (Hyaml (Some Sample.binAndFullBin)). reflexivity.
  - destruct (discovery_priority
                (Sample.host "" [("/work/.air.toml", Sample.onlyCmd);
                                 ("/work/.air.conf", Sample.binAndFullBin)])
                Sample.start) as (_ & _ & Htoml & _).
    apply (Htoml (Some Sample.onlyCmd)); [discriminate | reflexivity].
  - destruct (discovery_priority
                (Sample.host "" [("/work/.air.conf", Sample.binAndFullBin)])
                Sample.start) as (_ & _ & _ & Hconf & _).
    apply (Hconf (Some Sample.binAndFullBin));
      [discriminate | discriminate | reflexivity].
Defined.

Lemma graceful_fallback_witness :
  Forall (fun n => (readConfByName (Sample.host "" []) Sample.start n).2
                   <> None) [dftYAML; dftTOML; dftConf]
  /\ defaultPathConfig (Sample.host "" []) Sample.start
     = (Sample.start, Some (defaultConfig (Sample.host "" [])), None)
  /\ (initConfig (Sample.host "" []) Sample.start "").2 = None.
Proof.
  assert (Hnone : Forall
            (fun n => (readConfByName (Sample.host "" []) Sample.start n).2
                      <> None) [dftYAML; dftTOML; dftConf])
    by (repeat constructor; discriminate).
  destruct (graceful_fallback (Sample.host "" []) Sample.start)
    as (_ & Hfallback).
  destruct (Hfallback Hnone) as (Hdefault & Hinit).
  split; [exact Hnone|]. split; [exact Hdefault|].
  rewrite Hinit. reflexivity.
Defined.

Lemma working_directory_override_witness :
  os_Getenv (Sample.host "/srv/app" []) airWd = "/srv/app"
  /\ os_Chdir (Sample.host "/srv/app" []) (cwd Sample.start) "/srv/app"
     = Ok "/srv/app"
  /\ Root (preprocess (Sample.host "/srv/app" []) Sample.start
             (set_Root "elsewhere" zeroConfig)).1.2
     = "/srv/app"
  /\ cwd (preprocess (Sample.host "/srv/app" []) Sample.start
            (set_Root "elsewhere" zeroConfig)).1.1
     = "/srv/app".
Proof.
  split; [reflexivity|]. split; [reflexivity|].
  apply (working_directory_override (Sample.host "/srv/app" []) Sample.start
           (set_Root "elsewhere" zeroConfig) "/srv/app" "/srv/app");
    [apply sample_adapt_keeps | reflexivity | discriminate | reflexivity].
Defined.

Lemma tmpDir_never_empty_witness :
  TmpDir zeroConfig = ""
  /\ (exists p' c err,
        finalize (Sample.host "" []) Sample.start (Some zeroConfig)
          = (p', Some c, err) /\ TmpDir c = "tmp")
  /\ TmpDir (preprocess (Sample.host "" []) Sample.start zeroConfig).1.2
     <> "".
Proof.
  destruct (tmpDir_never_empty (Sample.host "" []) Sample.start zeroConfig
              (sample_adapt_keeps "" [] F_TmpDir))
    as ((p' & c & err & Hrun & _ & Htmp) & Hpre).
  split; [reflexivity|]. split.
  - exists p', c, err. split; [exact Hrun | apply Htmp; reflexivity].
  - apply Hpre. reflexivity.
Defined.

Lemma stopOnError_false_is_unset_witness :
  cfgBuild.StopOnError (Build Sample.onlyCmd) = false
  /\ exists p' c err,
       finalize (Sample.host "" []) Sample.start (Some Sample.onlyCmd)
         = (p', Some c, err) /\
       cfgBuild.StopOnError (Build c) = true.
Proof.
  split; [reflexivity|].
  apply stopOnError_false_is_unset;
    [apply sample_adapt_keeps | reflexivity].
Defined.

Lemma rel_best_effort_witness :
  filepath_Rel (Sample.host "" []) "/work" "/work/runner/config.go"
    = ("runner/config.go", None)
  /\ rel (Sample.host "" []) (set_Root "/work" zeroConfig)
       "/work/runner/config.go" = "runner/config.go"
  /\ (filepath_Rel (Sample.host "" []) "/work" "/etc/hosts").2
     = Some "Rel: can't make /etc/hosts relative to /work"
  /\ rel (Sample.host "" []) (set_Root "/work" zeroConfig) "/etc/hosts" = "".
Proof.
  split; [reflexivity|]. split; [|split; [reflexivity|]].
  - apply (rel_best_effort (Sample.host "" [])
             (set_Root "/work" zeroConfig) "/work/runner/config.go").
    reflexivity.
  - apply (proj2 (rel_best_effort (Sample.host "" [])
                    (set_Root "/work" zeroConfig) "/etc/hosts")
             "" "Rel: can't make /etc/hosts relative to /work").
    reflexivity.
Defined.

(** * Further properties of the code *)

(** ** The merge as an operation *)

Lemma mergeLeaf_assoc {A : Type} (empty : A -> bool) (a b c : A) :
  mergeLeaf empty (mergeLeaf empty a b) c
  = mergeLeaf empty a (mergeLeaf empty b c).
Proof.
  unfold mergeLeaf.
  destruct (empty a) eqn:Ha, (empty b) eqn:Hb, (empty c) eqn:Hc; cbn;
    rewrite ?Ha, ?Hb, ?Hc; reflexivity.
Qed.

Lemma mergeConfig_assoc (a b c : config) :
  mergeConfig (mergeConfig a b) c = mergeConfig a (mergeConfig b c).
Proof.
  unfold mergeConfig, mergeBuild, mergeColor, mergeLog, mergeMisc; cbn.
  rewrite !mergeLeaf_assoc. reflexivity.
Qed.

Lemma mergeConfig_zero_l (a : config) : mergeConfig zeroConfig a = a.
Proof.
  destruct a as [r t [] [] [] []].
  unfold mergeConfig, mergeBuild, mergeColor, mergeLog, mergeMisc; cbn.
  rewrite !mergeString_choice, !mergeSlice_choice, !mergeInt_choice,
    !mergeBool_choice. reflexivity.
Qed.

Lemma mergeConfig_zero_r (a : config) : mergeConfig a zeroConfig = a.
Proof.
  destruct a as [r t [] [] [] []].
  unfold mergeConfig, mergeBuild, mergeColor, mergeLog, mergeMisc, mergeLeaf;
    cbn.
  rewrite !andb_false_r. reflexivity.
Qed.

(** X1: the merge is associative, the all-zero configuration is neutral
    on both sides, and merging the same defaults a second time changes
    nothing.  Hence a file that sets nothing is finalized exactly like the
    defaults themselves. *)
Theorem merge_monoid (H : Host) (p : proc) (a b c : config) :
  mergeConfig (mergeConfig a b) c = mergeConfig a (mergeConfig b c)
  /\ mergeConfig zeroConfig a = a
  /\ mergeConfig a zeroConfig = a
  /\ mergeConfig (mergeConfig a b) b = mergeConfig a b
  /\ finalize H p (Some zeroConfig) = finalize H p (Some (defaultConfig H)).
Proof.
  split_and!.
  - apply mergeConfig_assoc.
  - apply mergeConfig_zero_l.
  - apply mergeConfig_zero_r.
  - rewrite mergeConfig_assoc, mergeConfig_idem. reflexivity.
  - rewrite !finalize_returns, mergeConfig_zero_l, mergeConfig_idem.
    reflexivity.
Qed.

Lemma default_set_fields (H : Host) (F : field) :
  isEmptyValue (get F (defaultConfig H)) = false <->
  In F [F_Root; F_TmpDir; F_Build_Cmd; F_Build_Bin; F_Build_Log;
        F_Build_IncludeExt; F_Build_ExcludeDir; F_Build_Delay;
        F_Build_StopOnError; F_Color_Main; F_Color_Watcher; F_Color_Build;
        F_Color_Runner].
Proof.
  unfold defaultConfig.
  destruct (on_windows H), F; cbn; split; intros Hx;
    try reflexivity; try discriminate Hx; try tauto;
    repeat (destruct Hx as [Hx|Hx]; [discriminate Hx|]); contradiction.
Qed.

(** X2: the defaults set root, tmp_dir, build.cmd, build.bin, build.log,
    build.include_ext, build.exclude_dir, build.delay, build.stop_on_error
    and the four colours main, watcher, build, runner, and leave every
    other field at its zero value.  Whatever was loaded, none of the
    fields they set is empty after the merge, nor, for those that
    [preprocess] and the platform adaptation leave alone, in the finalized
    configuration. *)
Theorem defaults_fill_every_gap (H : Host) (p : proc) (loaded : config)
  (F : field) :
  (isEmptyValue (get F (defaultConfig H)) = false <->
   In F [F_Root; F_TmpDir; F_Build_Cmd; F_Build_Bin; F_Build_Log;
         F_Build_IncludeExt; F_Build_ExcludeDir; F_Build_Delay;
         F_Build_StopOnError; F_Color_Main; F_Color_Watcher; F_Color_Build;
         F_Color_Runner])
  /\ (isEmptyValue (get F (defaultConfig H)) = false ->
      isEmptyValue (get F (mergeConfig loaded (defaultConfig H))) = false
      /\ (normalised F = false -> adapt_keeps H F ->
          exists p' c err,
            finalize H p (Some loaded) = (p', Some c, err) /\
            isEmptyValue (get F c) = false)).
Proof.
  split; [apply default_set_fields|]. intros HF.
  assert (Hmerged : isEmptyValue
                      (get F (mergeConfig loaded (defaultConfig H))) = false).
  { rewrite get_mergeConfig. unfold precedence.
    destruct (isEmptyValue (get F loaded)) eqn:Hl; assumption. }
  split; [exact Hmerged|].
  intros Hnorm Hadapt. eexists _, _, _. split; [apply finalize_returns|].
  rewrite preprocess_frame by auto using TmpDir_merged_nonempty.
  exact Hmerged.
Qed.

Lemma defaults_fill_every_gap_witness :
  isEmptyValue (get F_Build_Delay (defaultConfig (Sample.host "" [])))
  = false
  /\ isEmptyValue
       (get F_Build_Delay
          (mergeConfig Sample.onlyCmd (defaultConfig (Sample.host "" []))))
     = false
  /\ exists p' c err,
       finalize (Sample.host "" []) Sample.start (Some Sample.onlyCmd)
         = (p', Some c, err) /\
       isEmptyValue (get F_Build_Delay c) = false.
Proof.
  destruct (defaults_fill_every_gap (Sample.host "" []) Sample.start
              Sample.onlyCmd F_Build_Delay) as (_ & Hfill).
  destruct (Hfill eq_refl) as (Hmerged & Hfinal).
  split; [reflexivity|]. split; [exact Hmerged|].
  apply Hfinal; [reflexivity | apply sample_adapt_keeps].
Defined.

(** ** Loading a file *)

(** X3: [readConfig] returns either a configuration or an error, never
    both and never neither.  The error is the one of [viper], wrapped as
    "error read config / ..." when the file could not be read and as
    "error parse config / ..." when it could not be decoded; when reading
    fails the decoder plays no part in the result. *)
Theorem readConfig_contract (H : Host) (p : proc) (path : string) :
  ((exists cfg,
      readConfig H p path = (Some cfg, None) /\
      viper_ReadInConfig H (cwd p) path = None /\
      viper_Unmarshal H (cwd p) path = (cfg, None))
   \/ (exists e,
         readConfig H p path = (None, Some (wrap "error read config" e)) /\
         viper_ReadInConfig H (cwd p) path = Some e)
   \/ (exists e,
         readConfig H p path = (None, Some (wrap "error parse config" e)) /\
         viper_ReadInConfig H (cwd p) path = None /\
         (viper_Unmarshal H (cwd p) path).2 = Some e))
  /\ (viper_ReadInConfig H (cwd p) path <> None ->
      forall unmarshal,
        readConfig (with_Unmarshal unmarshal H) p path = readConfig H p path).
Proof.
  unfold readConfig, with_Unmarshal. cbn [viper_ReadInConfig viper_Unmarshal].
  destruct (viper_ReadInConfig H (cwd p) path) as [e|].
  - split; [right; left; eauto | reflexivity].
  - split; [|intros Hread; contradiction Hread; reflexivity].
    destruct (viper_Unmarshal H (cwd p) path) as [cfg [e|]].
    + right; right. eauto.
    + left. eauto.
Qed.

Lemma readConfig_contract_witness :
  viper_ReadInConfig (Sample.host "" []) (cwd Sample.start) "missing.toml"
  <> None
  /\ readConfig
       (with_Unmarshal (fun _ _ => (Sample.onlyCmd, None))
          (Sample.host "" []))
       Sample.start "missing.toml"
     = readConfig (Sample.host "" []) Sample.start "missing.toml".
Proof.
  split; [discriminate|].
  apply (readConfig_contract (Sample.host "" []) Sample.start "missing.toml").
  discriminate.
Defined.

(** X4: [readConfigOrDefault] never returns a nil configuration and
    reports exactly the error of [readConfig]; when the load succeeds it
    returns the loaded configuration, not the defaults. *)
Theorem readConfigOrDefault_contract (H : Host) (p : proc) (path : string) :
  is_Some (readConfigOrDefault H p path).1
  /\ (readConfigOrDefault H p path).2 = (readConfig H p path).2
  /\ (forall loaded,
        readConfig H p path = (Some loaded, None) ->
        readConfigOrDefault H p path = (Some loaded, None)).
Proof.
  unfold readConfigOrDefault.
  destruct (readConfig H p path) as [cfg [e|]] eqn:Hread; cbn [fst snd].
  - split_and!; [eauto | reflexivity | discriminate].
  - split_and!; [eapply readConfig_loaded, Hread | reflexivity |].
    intros loaded [= ->]. reflexivity.
Qed.

Lemma readConfigOrDefault_contract_witness :
  readConfig (Sample.host "" [("/work/air.toml", Sample.onlyCmd)])
    Sample.start "air.toml" = (Some Sample.onlyCmd, None)
  /\ readConfigOrDefault (Sample.host "" [("/work/air.toml", Sample.onlyCmd)])
       Sample.start "air.toml" = (Some Sample.onlyCmd, None).
Proof.
  split; [reflexivity|].
  apply (readConfigOrDefault_contract
           (Sample.host "" [("/work/air.toml", Sample.onlyCmd)])
           Sample.start "air.toml").
  reflexivity.
Defined.

(** ** Where discovery looks *)

(** X5: when [air_wd] is set, the conventional name is looked up in that
    directory and [os.Getwd] is not consulted, so that its failure does not
    matter; when [air_wd] is empty the name is looked up in the directory
    [os.Getwd] returns, and a failure of [os.Getwd] is returned as it is,
    with no configuration. *)
Theorem readConfByName_directory (H : Host) (p : proc) (name : string) :
  (os_Getenv H airWd <> "" ->
   readConfByName H p name
     = readConfig H p (filepath_Join H (os_Getenv H airWd) name)
   /\ forall getwd,
        readConfByName (with_Getwd getwd H) p name = readConfByName H p name)
  /\ (os_Getenv H airWd = "" ->
      forall wd,
        os_Getwd H (cwd p) = (wd, None) ->
        readConfByName H p name = readConfig H p (filepath_Join H wd name))
  /\ (os_Getenv H airWd = "" ->
      forall wd e,
        os_Getwd H (cwd p) = (wd, Some e) ->
        readConfByName H p name = (None, Some e)).
Proof.
  unfold readConfByName, with_Getwd. cbn [os_Getenv os_Getwd filepath_Join].
  split_and!.
  - intros Hset. destruct (String.eqb_spec (os_Getenv H airWd) "");
      [contradiction|]. cbn [negb]. split; reflexivity.
  - intros -> wd ->. reflexivity.
  - intros -> wd e ->. reflexivity.
Qed.

Lemma readConfByName_directory_witness :
  os_Getenv (Sample.host "/srv/app" [("/srv/app/.air.toml", Sample.onlyCmd)])
    airWd <> ""
  /\ readConfByName
       (with_Getwd (fun _ => ("", Some "getwd: no such file or directory"))
          (Sample.host "/srv/app" [("/srv/app/.air.toml", Sample.onlyCmd)]))
       Sample.start dftTOML
     = (Some Sample.onlyCmd, None)
  /\ readConfByName (Sample.host "" [("/work/.air.toml", Sample.onlyCmd)])
       Sample.start dftTOML = (Some Sample.onlyCmd, None)
  /\ readConfByName
       (with_Getwd (fun _ => ("", Some "getwd: no such file or directory"))
          (Sample.host "" [("/work/.air.toml", Sample.onlyCmd)]))
       Sample.start dftTOML
     = (None, Some "getwd: no such file or directory").
Proof.
  split; [discriminate|]. split_and!.
  - destruct (readConfByName_directory
                (Sample.host "/srv/app"
                   [("/srv/app/.air.toml", Sample.onlyCmd)])
                Sample.start dftTOML) as (Hset & _).
    destruct Hset as (_ & Hgetwd); [discriminate|].
    rewrite Hgetwd. reflexivity.
  - destruct (readConfByName_directory
                (Sample.host "" [("/work/.air.toml", Sample.onlyCmd)])
                Sample.start dftTOML) as (_ & Hcwd & _).
    rewrite (Hcwd eq_refl "/work" eq_refl). reflexivity.
  - destruct (readConfByName_directory
                (with_Getwd
                   (fun _ => ("", Some "getwd: no such file or directory"))
                   (Sample.host "" [("/work/.air.toml", Sample.onlyCmd)]))
                Sample.start dftTOML) as (_ & _ & Hfail).
    apply (Hfail eq_refl "" "getwd: no such file or directory" eq_refl).
Defined.

(** ** What discovery returns and prints *)

Lemma app_singleton_neq {A : Type} (l : list A) (x : A) : (l ++ [x])%list <> l.
Proof.
  intros Heq. apply (f_equal (@List.length A)) in Heq.
  rewrite length_app in Heq. cbn in Heq. lia.
Qed.

(** X6: discovery always returns a configuration, never nil, and never
    changes the working directory.  It prints one line, the deprecation
    notice, exactly when the configuration it returns was read from
    ".air.conf", that is when ".air.yaml" and ".air.toml" could not be
    read and ".air.conf" could; otherwise it prints nothing. *)
Theorem discovery_output (H : Host) (p : proc) :
  is_Some (defaultPathConfig H p).1.2
  /\ cwd (defaultPathConfig H p).1.1 = cwd p
  /\ (stdout (defaultPathConfig H p).1.1 = stdout p
      \/ stdout (defaultPathConfig H p).1.1 = (stdout p ++ [deprecationNotice])%list)
  /\ (stdout (defaultPathConfig H p).1.1 = (stdout p ++ [deprecationNotice])%list
      <-> (readConfByName H p dftYAML).2 <> None
          /\ (readConfByName H p dftTOML).2 <> None
          /\ (readConfByName H p dftConf).2 = None).
Proof.
  unfold defaultPathConfig. cbn [probe].
  destruct (readConfByName H p dftYAML) as [c1 [e1|]] eqn:Hyaml.
  2:{ cbn. split_and!; [eapply readConfByName_loaded, Hyaml | reflexivity
                        | left; reflexivity |].
      split; [intros Hout; symmetry in Hout;
              contradiction (app_singleton_neq _ _ Hout)
             | intros (Habs & _); contradiction Habs; reflexivity]. }
  destruct (readConfByName H p dftTOML) as [c2 [e2|]] eqn:Htoml.
  2:{ cbn. split_and!; [eapply readConfByName_loaded, Htoml | reflexivity
                        | left; reflexivity |].
      split; [intros Hout; symmetry in Hout;
              contradiction (app_singleton_neq _ _ Hout)
             | intros (_ & Habs & _); contradiction Habs; reflexivity]. }
  destruct (readConfByName H p dftConf) as [c3 [e3|]] eqn:Hconf.
  - cbn. split_and!; [eauto | reflexivity | left; reflexivity |].
    split; [intros Hout; symmetry in Hout;
            contradiction (app_singleton_neq _ _ Hout)
           | intros (_ & _ & Habs); discriminate Habs].
  - cbn. split_and!; [eapply readConfByName_loaded, Hconf | reflexivity
                      | right; reflexivity |].
    split; [intros _; split_and!; [discriminate | discriminate | reflexivity]
           | reflexivity].
Qed.

Lemma discovery_output_witness :
  ((readConfByName
      (Sample.host "" [("/work/.air.conf", Sample.onlyCmd)])
      Sample.start dftYAML).2 <> None
   /\ (readConfByName
         (Sample.host "" [("/work/.air.conf", Sample.onlyCmd)])
         Sample.start dftTOML).2 <> None
   /\ (readConfByName
         (Sample.host "" [("/work/.air.conf", Sample.onlyCmd)])
         Sample.start dftConf).2 = None)
  /\ stdout (defaultPathConfig
               (Sample.host "" [("/work/.air.conf", Sample.onlyCmd)])
               Sample.start).1.1
     = (stdout Sample.start ++ [deprecationNotice])%list.
Proof.
  assert (Hreads :
    (readConfByName
       (Sample.host "" [("/work/.air.conf", Sample.onlyCmd)])
       Sample.start dftYAML).2 <> None
    /\ (readConfByName
          (Sample.host "" [("/work/.air.conf", Sample.onlyCmd)])
          Sample.start dftTOML).2 <> None
    /\ (readConfByName
          (Sample.host "" [("/work/.air.conf", Sample.onlyCmd)])
          Sample.start dftConf).2 = None)
    by (split_and!; [discriminate | discriminate | reflexivity]).
  split; [exact Hreads|].
  destruct (discovery_output
              (Sample.host "" [("/work/.air.conf", Sample.onlyCmd)])
              Sample.start) as (_ & _ & _ & Hnotice).
  apply Hnotice, Hreads.
Defined.

(** ** When [initConfig] returns a configuration *)

Lemma finalize_is_Some (H : Host) (p : proc) (c : config) :
  is_Some (finalize H p (Some c)).1.2.
Proof. rewrite finalize_returns. cbn. eauto. Qed.

(** X7: [initConfig] returns no configuration exactly when an explicit
    path was given and could not be loaded.  In every other case it
    returns a configuration, with or without an error: the one loaded from
    the explicit path, or the one found by discovery, merged with the
    defaults and run through [preprocess]. *)
Theorem initConfig_nil_iff (H : Host) (p : proc) (path : string) :
  ((initConfig H p path).1.2 = None
   <-> path <> "" /\ (readConfig H p path).2 <> None)
  /\ (forall loaded,
        path <> "" ->
        readConfig H p path = (Some loaded, None) ->
        initConfig H p path = finalize H p (Some loaded))
  /\ (path = "" ->
      initConfig H p path
      = finalize H (defaultPathConfig H p).1.1 (defaultPathConfig H p).1.2).
Proof.
  unfold initConfig. split_and!.
  - destruct (String.eqb_spec path "") as [->|Hpath].
    + pose proof (discovery_output H p) as ([c Hc] & _).
      pose proof (probe_no_error H p [dftYAML; dftTOML; dftConf]) as Herr.
      fold (defaultPathConfig H p) in Herr.
      destruct (defaultPathConfig H p) as [[p' cfg] err].
      cbn in Hc, Herr. subst cfg err.
      pose proof (finalize_is_Some H p' c) as [c' Hc'].
      split; [congruence | intros [Habs _]; contradiction Habs; reflexivity].
    + pose proof (readConfigOrDefault_contract H p path) as ([c Hc] & He & _).
      destruct (readConfigOrDefault H p path) as [cfg err].
      cbn in Hc, He. subst cfg err.
      destruct (readConfig H p path).2 as [e|].
      * split; [intros _; split; [assumption | discriminate] | reflexivity].
      * pose proof (finalize_is_Some H p c) as [c' Hc'].
        split; [congruence | intros [_ Habs]; contradiction Habs; reflexivity].
  - intros loaded Hpath Hread.
    destruct (String.eqb_spec path ""); [contradiction|].
    rewrite (proj2 (proj2 (readConfigOrDefault_contract H p path)) _ Hread).
    reflexivity.
  - intros ->. cbn [String.eqb].
    pose proof (probe_no_error H p [dftYAML; dftTOML; dftConf]) as Herr.
    fold (defaultPathConfig H p) in Herr.
    destruct (defaultPathConfig H p) as [[p' cfg] err].
    cbn in Herr. subst err. reflexivity.
Qed.

Lemma initConfig_nil_iff_witness :
  readConfig (Sample.host "" [("/work/air.toml", Sample.onlyCmd)])
    Sample.start "air.toml" = (Some Sample.onlyCmd, None)
  /\ initConfig (Sample.host "" [("/work/air.toml", Sample.onlyCmd)])
       Sample.start "air.toml"
     = finalize (Sample.host "" [("/work/air.toml", Sample.onlyCmd)])
         Sample.start (Some Sample.onlyCmd)
  /\ (initConfig (Sample.host "" []) Sample.start "missing.toml").1.2 = None
  /\ initConfig (Sample.host "" []) Sample.start ""
     = finalize (Sample.host "" [])
         (defaultPathConfig (Sample.host "" []) Sample.start).1.1
         (defaultPathConfig (Sample.host "" []) Sample.start).1.2.
Proof.
  split; [reflexivity|]. split_and!.
  - apply (initConfig_nil_iff
             (Sample.host "" [("/work/air.toml", Sample.onlyCmd)])
             Sample.start "air.toml"); [discriminate | reflexivity].
  - apply (initConfig_nil_iff (Sample.host "" []) Sample.start "missing.toml").
    split; discriminate.
  - apply (initConfig_nil_iff (Sample.host "" []) Sample.start "").
    reflexivity.
Defined.

(** ** The errors of [preprocess] *)

Lemma empty_length (s : string) :
  (0 <? String.length s)%nat = false -> s = "".
Proof. destruct s; [reflexivity | discriminate]. Qed.

Ltac error_after_chdir :=
  destruct (expandPath _ _ _) as [root [e'|]] eqn:Hexpand; unfold_setters;
  [ intros [= ->]; right; left; exists root;
    split_and!; [exact Hexpand | | |];
    match goal with
    | |- context [String.eqb ?t ""] => destruct (String.eqb_spec t "")
    end; unfold_setters; try reflexivity; try assumption; discriminate
  | destruct (0 <? String.length _)%nat eqn:Hfull;
    [ discriminate
    | destruct (filepath_Abs _ _ _) as [bin err] eqn:Habs; unfold_setters;
      intros ->; right; right;
      split; [apply empty_length, Hfull | eexists; exact Habs] ] ].

(** X8: an error returned by [preprocess] has one of three origins.
    Either [os.Chdir] into [air_wd] failed, and then nothing was changed:
    the configuration and the process are as they were.  Or [expandPath]
    failed, and then root holds what [expandPath] returned, tmp_dir is
    named, and the build section is untouched.  Or [filepath.Abs] failed
    on the binary, which only happens when full_bin is empty. *)
Theorem preprocess_error_origin (H : Host) (p : proc) (c : config)
  (e : error) :
  (preprocess H p c).2 = Some e ->
  (os_Getenv H airWd <> ""
   /\ os_Chdir H (cwd p) (os_Getenv H airWd) = Err e
   /\ preprocess H p c = (p, c, Some e))
  \/ (exists root,
        expandPath H (cwd (preprocess H p c).1.1)
          (if String.eqb (os_Getenv H airWd) "" then Root c
           else os_Getenv H airWd)
        = (root, Some e)
        /\ Root (preprocess H p c).1.2 = root
        /\ Build (preprocess H p c).1.2 = Build c
        /\ TmpDir (preprocess H p c).1.2 <> "")
  \/ (cfgBuild.FullBin (Build (preprocess H p c).1.2) = ""
      /\ exists bin,
           filepath_Abs H (cwd (preprocess H p c).1.1) bin
           = (cfgBuild.Bin (Build (preprocess H p c).1.2), Some e)).
Proof.
  unfold preprocess.
  destruct (String.eqb_spec (os_Getenv H airWd) "") as [Henv|Henv];
    cbn [negb].
  - error_after_chdir.
  - destruct (os_Chdir H (cwd p) (os_Getenv H airWd)) as [d|e0] eqn:Hchdir.
    + cbn [cwd set_cwd]. error_after_chdir.
    + cbn [fst snd]. intros [= ->]. left. split_and!; auto.
Qed.

Lemma preprocess_error_origin_witness :
  (preprocess (Sample.host "/nowhere" []) Sample.start Sample.onlyCmd).2
  = Some "chdir /nowhere: no such file or directory"
  /\ ((os_Getenv (Sample.host "/nowhere" []) airWd <> ""
       /\ os_Chdir (Sample.host "/nowhere" []) (cwd Sample.start)
            (os_Getenv (Sample.host "/nowhere" []) airWd)
          = Err "chdir /nowhere: no such file or directory"
       /\ preprocess (Sample.host "/nowhere" []) Sample.start Sample.onlyCmd
          = (Sample.start, Sample.onlyCmd,
             Some "chdir /nowhere: no such file or directory"))
      \/ (exists root,
            expandPath (Sample.host "/nowhere" [])
              (cwd (preprocess (Sample.host "/nowhere" []) Sample.start
                      Sample.onlyCmd).1.1)
              (if String.eqb (os_Getenv (Sample.host "/nowhere" []) airWd) ""
               then Root Sample.onlyCmd
               else os_Getenv (Sample.host "/nowhere" []) airWd)
            = (root, Some "chdir /nowhere: no such file or directory")
            /\ Root (preprocess (Sample.host "/nowhere" []) Sample.start
                       Sample.onlyCmd).1.2 = root
            /\ Build (preprocess (Sample.host "/nowhere" []) Sample.start
                        Sample.onlyCmd).1.2 = Build Sample.onlyCmd
            /\ TmpDir (preprocess (Sample.host "/nowhere" []) Sample.start
                         Sample.onlyCmd).1.2 <> "")
      \/ (cfgBuild.FullBin
            (Build (preprocess (Sample.host "/nowhere" []) Sample.start
                      Sample.onlyCmd).1.2) = ""
          /\ exists bin,
               filepath_Abs (Sample.host "/nowhere" [])
                 (cwd (preprocess (Sample.host "/nowhere" []) Sample.start
                         Sample.onlyCmd).1.1) bin
               = (cfgBuild.Bin
                    (Build (preprocess (Sample.host "/nowhere" [])
                              Sample.start Sample.onlyCmd).1.2),
                  Some "chdir /nowhere: no such file or directory"))).
Proof.
  split; [reflexivity|].
  apply (preprocess_error_origin (Sample.host "/nowhere" []) Sample.start
           Sample.onlyCmd "chdir /nowhere: no such file or directory").
  reflexivity.
Defined.

(** ** What [preprocess] does to the process *)

(** X9: [preprocess] never prints.  Without [air_wd] it leaves the process
    as it is, and root becomes the expansion of the configured root in the
    current directory.  With [air_wd] the working directory either stays or
    becomes the one [os.Chdir] entered. *)
Theorem preprocess_process (H : Host) (p : proc) (c : config) :
  stdout (preprocess H p c).1.1 = stdout p
  /\ (cwd (preprocess H p c).1.1 = cwd p
      \/ os_Chdir H (cwd p) (os_Getenv H airWd)
         = Ok (cwd (preprocess H p c).1.1))
  /\ (os_Getenv H airWd = "" ->
      (preprocess H p c).1.1 = p
      /\ (adapt_keeps H F_Root ->
          Root (preprocess H p c).1.2 = (expandPath H (cwd p) (Root c)).1)).
Proof.
  unfold preprocess.
  destruct (String.eqb_spec (os_Getenv H airWd) "") as [Henv|Henv];
    cbn [negb];
    [|destruct (os_Chdir H (cwd p) (os_Getenv H airWd)) as [d|e0];
      [|split_and!; [reflexivity | left; reflexivity | contradiction]]];
    (destruct (expandPath _ _ _) as [root [e'|]] eqn:Hexpand; unfold_setters;
     [|destruct (0 <? String.length _)%nat;
       [|destruct (filepath_Abs _ _ _) as [bin err]]]; unfold_setters;
     (split_and!;
      [ reflexivity
      | first [left; reflexivity | right; reflexivity]
      | try contradiction ])).
  all: intros _; split; [reflexivity|]; intros Hadapt;
    pose proof (adapt_keeps_string H F_Root Root (fun _ => eq_refl) Hadapt)
      as Hkeep;
    rewrite ?Hkeep;
    match goal with
    | |- context [String.eqb ?t ""] => destruct (String.eqb t "")
    end; reflexivity.
Qed.

Lemma preprocess_process_witness :
  os_Getenv (Sample.host "" []) airWd = ""
  /\ (preprocess (Sample.host "" []) Sample.start Sample.onlyCmd).1.1
     = Sample.start
  /\ Root (preprocess (Sample.host "" []) Sample.start
             (defaultConfig (Sample.host "" []))).1.2 = "/work".
Proof.
  split; [reflexivity|]. split.
  - apply (preprocess_process (Sample.host "" []) Sample.start
             Sample.onlyCmd). reflexivity.
  - destruct (preprocess_process (Sample.host "" []) Sample.start
                (defaultConfig (Sample.host "" []))) as (_ & _ & Hplain).
    destruct (Hplain eq_refl) as (_ & Hroot).
    rewrite (Hroot (sample_adapt_keeps "" [] F_Root)). reflexivity.
Defined.

(** ** Excluded directories and the binary *)

(** X10: a successful [preprocess] replaces every entry of
    build.exclude_dir by its cleaned form, in the same order, provided the
    platform adaptation does not write to the list, which it shares with
    the configuration while it runs.  When nothing was loaded for the
    field, the result is the cleaned default list. *)
Theorem excludeDir_cleaned (H : Host) (p : proc) (c : config) :
  adapt_keeps H F_Build_ExcludeDir ->
  (preprocess H p c).2 = None ->
  cfgBuild.ExcludeDir (Build (preprocess H p c).1.2)
  = map (cleanPath H) (cfgBuild.ExcludeDir (Build c))
  /\ (cfgBuild.ExcludeDir (Build c) = [] ->
      forall p' c',
        finalize H p (Some c) = (p', Some c', None) ->
        cfgBuild.ExcludeDir (Build c')
        = map (cleanPath H) ["assets"; "tmp"; "vendor"]).
Proof.
  assert (Hpre : forall c0, (preprocess H p c0).2 = None ->
            cfgBuild.ExcludeDir (Build (preprocess H p c0).1.2)
            = map (cleanPath H) (cfgBuild.ExcludeDir (Build c0))).
  { intros c0. unfold preprocess.
    destruct (negb (String.eqb (os_Getenv H airWd) ""));
      [destruct (os_Chdir H (cwd p) (os_Getenv H airWd)) as [d|e0];
       [|discriminate]|];
      (destruct (expandPath _ _ _) as [root [e'|]]; [discriminate|]);
      (destruct (0 <? String.length _)%nat;
       [|destruct (filepath_Abs _ _ _) as [bin err]]);
      intros _; unfold_setters;
      match goal with
      | |- context [String.eqb ?t ""] => destruct (String.eqb t "")
      end; reflexivity. }
  intros _ Hok. split; [apply Hpre, Hok|].
  intros Hempty p' c'. rewrite finalize_returns. intros [= _ <- Herr].
  rewrite (Hpre _ Herr). f_equal.
  cbn [mergeConfig mergeBuild Build cfgBuild.ExcludeDir].
  rewrite mergeSlice_choice, Hempty. unfold defaultConfig.
  destruct (on_windows H); reflexivity.
Qed.

Lemma excludeDir_cleaned_witness :
  (preprocess (Sample.host "" []) Sample.start
     (set_Build_ExcludeDir ["./vendor"; "tmp"; "./node_modules"]
        Sample.onlyCmd)).2 = None
  /\ cfgBuild.ExcludeDir
       (Build (preprocess (Sample.host "" []) Sample.start
                 (set_Build_ExcludeDir ["./vendor"; "tmp"; "./node_modules"]
                    Sample.onlyCmd)).1.2)
     = ["vendor"; "tmp"; "node_modules"].
Proof.
  split; [reflexivity|].
  destruct (excludeDir_cleaned (Sample.host "" []) Sample.start
              (set_Build_ExcludeDir ["./vendor"; "tmp"; "./node_modules"]
                 Sample.onlyCmd)
              (sample_adapt_keeps "" [] F_Build_ExcludeDir) eq_refl)
    as (Hclean & _).
  rewrite Hclean. reflexivity.
Defined.

(** X11: when full_bin is empty and the platform adaptation leaves bin
    and full_bin alone, a successful [preprocess] replaces build.bin by
    what [filepath.Abs] returns for it in the working directory the
    process is then in, and [filepath.Abs] has not failed. *)
Theorem bin_made_absolute (H : Host) (p : proc) (c : config) :
  adapt_keeps H F_Build_Bin ->
  adapt_keeps H F_Build_FullBin ->
  cfgBuild.FullBin (Build c) = "" ->
  (preprocess H p c).2 = None ->
  filepath_Abs H (cwd (preprocess H p c).1.1) (cfgBuild.Bin (Build c))
  = (cfgBuild.Bin (Build (preprocess H p c).1.2), None).
Proof.
  intros Hbin Hfull Hempty.
  pose proof (adapt_keeps_string H F_Build_Bin
                (fun c => cfgBuild.Bin (Build c)) (fun _ => eq_refl) Hbin)
    as Hkeep_bin.
  pose proof (adapt_keeps_string H F_Build_FullBin
                (fun c => cfgBuild.FullBin (Build c)) (fun _ => eq_refl) Hfull)
    as Hkeep_full.
  unfold preprocess.
  destruct (negb (String.eqb (os_Getenv H airWd) ""));
    [destruct (os_Chdir H (cwd p) (os_Getenv H airWd)) as [d|e0];
     [|discriminate]|];
    (destruct (expandPath _ _ _) as [root [e'|]]; [discriminate|]);
    unfold_setters; rewrite Hkeep_full, Hkeep_bin;
    match goal with
    | |- context [String.eqb ?t ""] => destruct (String.eqb t "")
    end; unfold_setters; rewrite Hempty; cbn [String.length Nat.ltb Nat.leb];
    destruct (filepath_Abs _ _ _) as [bin err] eqn:Habs; unfold_setters;
    intros ->; exact Habs.
Qed.

Lemma bin_made_absolute_witness :
  cfgBuild.FullBin (Build (defaultConfig (Sample.host "/srv/app" []))) = ""
  /\ (preprocess (Sample.host "/srv/app" []) Sample.start
        (defaultConfig (Sample.host "/srv/app" []))).2 = None
  /\ cfgBuild.Bin
       (Build (preprocess (Sample.host "/srv/app" []) Sample.start
                 (defaultConfig (Sample.host "/srv/app" []))).1.2)
     = "/srv/app/tmp/main".
Proof.
  split; [reflexivity|]. split; [reflexivity|].
  pose proof (bin_made_absolute (Sample.host "/srv/app" []) Sample.start
                (defaultConfig (Sample.host "/srv/app" []))
                (sample_adapt_keeps _ _ F_Build_Bin)
                (sample_adapt_keeps _ _ F_Build_FullBin)
                eq_refl eq_refl) as Habs.
  apply (f_equal fst) in Habs. cbn [fst] in Habs.
  rewrite <- Habs. reflexivity.
Defined.

(** ** The rebuild delay as a duration *)

Lemma int64_wrap_range (z : Z) : - 2 ^ 63 <= int64_wrap z < 2 ^ 63.
Proof.
  unfold int64_wrap.
  pose proof (Z.mod_pos_bound (z + 2 ^ 63) (2 ^ 64) ltac:(lia)). lia.
Qed.

Lemma int64_wrap_small (z : Z) :
  - 2 ^ 63 <= z < 2 ^ 63 -> int64_wrap z = z.
Proof.
  intros Hz. unfold int64_wrap. rewrite Z.mod_small by lia. lia.
Qed.

(** X12: [buildDelay] is the configured number of milliseconds turned
    into nanoseconds, and it is exact precisely for delays between
    -9223372036854 and 9223372036854 milliseconds; beyond, the [int64]
    product wraps around.  A configuration finalized from a file that
    does not set build.delay has a delay of one second. *)
Theorem buildDelay_exact (H : Host) (p : proc) (c : config) :
  - 2 ^ 63 <= cfgBuild.Delay (Build c) < 2 ^ 63 ->
  (buildDelay c = cfgBuild.Delay (Build c) * 1000000
   <-> - 9223372036854 <= cfgBuild.Delay (Build c) <= 9223372036854)
  /\ - 2 ^ 63 <= buildDelay c < 2 ^ 63
  /\ (cfgBuild.Delay (Build c) = 0 -> adapt_keeps H F_Build_Delay ->
      exists p' c' err,
        finalize H p (Some c) = (p', Some c', err) /\
        buildDelay c' = 1000000000).
Proof.
  intros Hrange.
  assert (Hbd : buildDelay c
                = int64_wrap (cfgBuild.Delay (Build c) * 1000000))
    by (unfold buildDelay; rewrite (int64_wrap_small _ Hrange); reflexivity).
  rewrite Hbd. split; [|split].
  - split.
    + intros Heq.
      pose proof (int64_wrap_range (cfgBuild.Delay (Build c) * 1000000)).
      lia.
    + intros Hsmall. apply int64_wrap_small. lia.
  - apply int64_wrap_range.
  - intros Hzero Hadapt. eexists _, _, _. split; [apply finalize_returns|].
    assert (Hget : get F_Build_Delay
                     (preprocess H p (mergeConfig c (defaultConfig H))).1.2
                   = VInt 1000).
    { rewrite preprocess_frame by auto using TmpDir_merged_nonempty.
      rewrite get_mergeConfig. unfold precedence. cbn [get isEmptyValue].
      rewrite Hzero. cbn. destruct (on_windows H); reflexivity. }
    cbn [get] in Hget. injection Hget as Hdelay.
    unfold buildDelay. rewrite Hdelay. reflexivity.
Qed.

Lemma buildDelay_exact_witness :
  - 2 ^ 63 <= cfgBuild.Delay (Build Sample.onlyCmd) < 2 ^ 63
  /\ buildDelay Sample.onlyCmd = 0
  /\ exists p' c' err,
       finalize (Sample.host "" []) Sample.start (Some Sample.onlyCmd)
         = (p', Some c', err) /\
       buildDelay c' = 1000000000.
Proof.
  assert (Hrange : - 2 ^ 63 <= cfgBuild.Delay (Build Sample.onlyCmd) < 2 ^ 63)
    by (cbn; lia).
  destruct (buildDelay_exact (Sample.host "" []) Sample.start Sample.onlyCmd
              Hrange) as (Hexact & _ & Hdefault).
  split; [exact Hrange|]. split.
  - rewrite (proj2 Hexact); [reflexivity | cbn; lia].
  - apply Hdefault; [reflexivity | apply sample_adapt_keeps].
Defined.

(** ** The colour table of a finalized configuration *)

(** X13: when the platform adaptation leaves the four colours alone, the
    colour table of a finalized configuration binds each of "main",
    "build", "runner" and "watcher" to the loaded colour when one was
    loaded and to the default ("magenta", "yellow", "green", "cyan")
    otherwise, so that no entry of the table is empty. *)
Theorem colorInfo_finalized (H : Host) (p : proc) (loaded : config) :
  (forall F, In F colour_fields -> adapt_keeps H F) ->
  exists p' c err,
    finalize H p (Some loaded) = (p', Some c, err)
    /\ colorInfo c !! "main"
       = Some (if String.eqb (cfgColor.Main (Color loaded)) ""
               then "magenta" else cfgColor.Main (Color loaded))
    /\ colorInfo c !! "build"
       = Some (if String.eqb (cfgColor.Build (Color loaded)) ""
               then "yellow" else cfgColor.Build (Color loaded))
    /\ colorInfo c !! "runner"
       = Some (if String.eqb (cfgColor.Runner (Color loaded)) ""
               then "green" else cfgColor.Runner (Color loaded))
    /\ colorInfo c !! "watcher"
       = Some (if String.eqb (cfgColor.Watcher (Color loaded)) ""
               then "cyan" else cfgColor.Watcher (Color loaded))
    /\ (forall k v, colorInfo c !! k = Some v -> v <> "").
Proof.
  intros Hadapt. eexists _, _, _. split; [apply finalize_returns|].
  set (c := (preprocess H p (mergeConfig loaded (defaultConfig H))).1.2).
  assert (Hget : forall F, In F colour_fields ->
            get F c = precedence F loaded (defaultConfig H)).
  { intros F HF. unfold c.
    rewrite preprocess_frame; [apply get_mergeConfig | | | ].
    - cbn in HF. intuition (subst; reflexivity).
    - apply TmpDir_merged_nonempty.
    - apply Hadapt, HF. }
  assert (Hmain := Hget F_Color_Main ltac:(cbn; tauto)).
  assert (Hbuild := Hget F_Color_Build ltac:(cbn; tauto)).
  assert (Hrunner := Hget F_Color_Runner ltac:(cbn; tauto)).
  assert (Hwatcher := Hget F_Color_Watcher ltac:(cbn; tauto)).
  unfold precedence in Hmain, Hbuild, Hrunner, Hwatcher.
  cbn [get isEmptyValue] in Hmain, Hbuild, Hrunner, Hwatcher.
  unfold isEmptyString, defaultConfig in Hmain, Hbuild, Hrunner, Hwatcher.
  cbn [Color cfgColor.Main cfgColor.Build cfgColor.Runner cfgColor.Watcher]
    in Hmain, Hbuild, Hrunner, Hwatcher.
  assert (Em : cfgColor.Main (Color c)
               = if String.eqb (cfgColor.Main (Color loaded)) ""
                 then "magenta" else cfgColor.Main (Color loaded))
    by (destruct (String.eqb (cfgColor.Main (Color loaded)) "");
        congruence).
  assert (Eb : cfgColor.Build (Color c)
               = if String.eqb (cfgColor.Build (Color loaded)) ""
                 then "yellow" else cfgColor.Build (Color loaded))
    by (destruct (String.eqb (cfgColor.Build (Color loaded)) "");
        congruence).
  assert (Er : cfgColor.Runner (Color c)
               = if String.eqb (cfgColor.Runner (Color loaded)) ""
                 then "green" else cfgColor.Runner (Color loaded))
    by (destruct (String.eqb (cfgColor.Runner (Color loaded)) "");
        congruence).
  assert (Ew : cfgColor.Watcher (Color c)
               = if String.eqb (cfgColor.Watcher (Color loaded)) ""
                 then "cyan" else cfgColor.Watcher (Color loaded))
    by (destruct (String.eqb (cfgColor.Watcher (Color loaded)) "");
        congruence).
  unfold colorInfo. rewrite Em, Eb, Er, Ew.
  split_and!; try (by simplify_map_eq).
  intros k v Hk.
  repeat (rewrite lookup_insert in Hk; case_decide;
          [injection Hk as <-;
           match goal with
           | |- context [String.eqb ?t ""] => destruct (String.eqb_spec t "")
           end; [discriminate | assumption]|]).
  rewrite lookup_singleton in Hk. case_decide; [|discriminate].
  injection Hk as <-.
  match goal with
  | |- context [String.eqb ?t ""] => destruct (String.eqb_spec t "")
  end; [discriminate | assumption].
Qed.

Lemma colorInfo_finalized_witness :
  (forall F, In F colour_fields -> adapt_keeps (Sample.host "" []) F)
  /\ exists p' c err,
       finalize (Sample.host "" []) Sample.start (Some Sample.onlyCmd)
         = (p', Some c, err)
       /\ colorInfo c !! "main" = Some "magenta"
       /\ colorInfo c !! "watcher" = Some "cyan".
Proof.
  assert (Hadapt : forall F, In F colour_fields ->
                             adapt_keeps (Sample.host "" []) F)
    by (intros F _; apply sample_adapt_keeps).
  split; [exact Hadapt|].
  destruct (colorInfo_finalized (Sample.host "" []) Sample.start
              Sample.onlyCmd Hadapt)
    as (p' & c & err & Hrun & Hmain & _ & _ & Hwatcher & _).
  exists p', c, err. split_and!; assumption.
Defined.

(** ** The defaults and the platform *)

(** X14: the defaults depend on the host through the platform test only,
    and only in build.cmd and build.bin: every other field has the same
    default on every host, and these two differ between a Windows host
    and any other. *)
Theorem default_platform (H H' : Host) (F : field) :
  (on_windows H = on_windows H' -> defaultConfig H = defaultConfig H')
  /\ (platform_default F = false ->
      get F (defaultConfig H) = get F (defaultConfig H'))
  /\ (on_windows H <> on_windows H' -> platform_default F = true ->
      get F (defaultConfig H) <> get F (defaultConfig H')).
Proof.
  unfold defaultConfig. split_and!.
  - intros ->. reflexivity.
  - intros HF. destruct F; try discriminate HF;
      destruct (on_windows H), (on_windows H'); reflexivity.
  - intros Hos HF. destruct F; try discriminate HF;
      destruct (on_windows H), (on_windows H'); cbn; congruence.
Qed.

Lemma default_platform_witness :
  on_windows (with_platform true (Sample.host "" []))
  <> on_windows (Sample.host "" [])
  /\ get F_Build_Bin (defaultConfig (with_platform true (Sample.host "" [])))
     <> get F_Build_Bin (defaultConfig (Sample.host "" []))
  /\ get F_Build_Delay
       (defaultConfig (with_platform true (Sample.host "" [])))
     = get F_Build_Delay (defaultConfig (Sample.host "" [])).
Proof.
  destruct (default_platform (with_platform true (Sample.host "" []))
              (Sample.host "" []) F_Build_Bin) as (_ & _ & Hdiffer).
  destruct (default_platform (with_platform true (Sample.host "" []))
              (Sample.host "" []) F_Build_Delay) as (_ & Hsame & _).
  split; [discriminate|]. split.
  - apply Hdiffer; [discriminate | reflexivity].
  - apply Hsame. reflexivity.
Defined.
